(** * debug.c: debug, warning and error reporting facility

    A shallow embedding of [src/debug.c]: the eight reporting functions
    [msg], [dbg], [warn], [warnp], [err], [errp], [usage_err] and
    [usage_errp], over an explicit process state (the text written to
    [stderr] so far and the value of [errno]) and an outcome that tells a
    call that returns from a call that ends the process through [exit]. *)

From Stdlib Require Import ZArith Lia Bool List Ascii String DecimalString.
Import ListNotations.
Open Scope list_scope.
Open Scope string_scope.
Open Scope Z_scope.

(** ** Data *)

(** The part of the process the functions act on: what has been written to
    the diagnostic stream, and the C library's [errno]. *)
Record state : Type := mkState {
  stderr : string;
  errno : Z
}.

(** The globals declared in [debug.h] and set by the program at start-up;
    [debug.c] only reads them.  A [char *] that may be [NULL] is an
    [option string]. *)
Record globals : Type := mkGlobals {
  debuglevel : Z;
  program : option string;
  version_string : string
}.

(** One variadic argument (an [int] or a [char *]) and the argument list a
    [va_list] walks. *)
Inductive arg : Type :=
| ArgInt (z : Z)
| ArgStr (s : string).

Definition va_list : Type := list arg.

(** Modelled from the spec: the macro [FORCED_EXIT] of [debug.h], which is
    not part of the sources at hand.  The spec ("forced to a reserved
    fallback value (255)") and the comments of [debug.c] ("exit(255)",
    "NUMERIC EXIT CODES: 255 debug.c - FORCED_EXIT") give its value. *)
Definition FORCED_EXIT : Z := 255.

(** The line feed, written ['\n'] in C. *)
Definition LF_char : ascii := "010"%char.
Definition LF : string := String LF_char EmptyString.

(** ** The C library

    [debug.c] calls [fprintf], [vfprintf], [fputc], [strerror] and [exit].
    The library is a parameter of the embedding:
    - [vformat fmt ap] is the text a formatted print of [fmt] with the
      arguments [ap] sends to the stream, and the [int] it returns; as in
      ISO C both depend on the format and the arguments only, and a write
      to [stderr] sends all of its text (the [%m] directive of glibc, which
      reads [errno], is outside this model);
    - [strerror e] is the description of the error code [e], taken as a
      function of the code alone (a [strerror] that sets [errno] is not
      modelled; [debug.c] calls it only for a print that is the last of
      [warnp], the last of the message block of [usage_errp], and in
      [errp] comes after the test of [errno]);
    - [stdio_errno s text] is the value of [errno] after a stdio call that
      wrote [text] from the state [s]: ISO C lets any library function
      change [errno], also when it succeeds. *)
Record libc : Type := mkLibc {
  vformat : string -> va_list -> string * Z;
  strerror : Z -> string;
  stdio_errno : state -> string -> Z
}.

(** Decimal rendering of an [int], as [%d] prints it. *)
Definition dec (z : Z) : string := NilEmpty.string_of_int (Z.to_int z).

(** The reference meaning of a format made of plain characters, [%s], [%d]
    and [%%]: the only directives [debug.c] itself uses.  [None] on any
    other directive and on an argument that is missing or of the wrong
    type, where this development says nothing about the library. *)
Fixpoint c_format (fmt : string) (ap : va_list) : option string :=
  match fmt with
  | EmptyString => Some EmptyString
  | String c rest =>
      if (c =? "%")%char then
        match rest with
        | EmptyString => None
        | String d rest' =>
            if (d =? "%")%char then option_map (String "%") (c_format rest' ap)
            else if (d =? "s")%char then
              match ap with
              | ArgStr s :: ap' => option_map (append s) (c_format rest' ap')
              | _ => None
              end
            else if (d =? "d")%char then
              match ap with
              | ArgInt z :: ap' => option_map (append (dec z)) (c_format rest' ap')
              | _ => None
              end
            else None
        end
      else option_map (String c) (c_format rest ap)
  end.

(** A library conforms when its formatted print agrees with [c_format]
    wherever that is defined, returning the number of characters sent. *)
Definition conforms (L : libc) : Prop :=
  forall fmt ap text,
    c_format fmt ap = Some text ->
    vformat L fmt ap = (text, Z.of_nat (String.length text)).

(** ** Control: a call returns a value or ends the process *)

Inductive outcome (A : Type) : Type :=
| Returned (a : A)
| Exited (status : Z).
Arguments Returned {A} a.
Arguments Exited {A} status.

Definition M (A : Type) : Type := state -> outcome A * state.

Definition ret {A : Type} (a : A) : M A := fun s => (Returned a, s).

Definition bind {A B : Type} (m : M A) (k : A -> M B) : M B :=
  fun s =>
    match m s with
    | (Returned a, s') => k a s'
    | (Exited c, s') => (Exited c, s')
    end.

Notation "x <- m ;; k" := (bind m (fun x => k))
  (at level 61, m at next level, right associativity).
Notation "m ;; k" := (bind m (fun _ => k))
  (at level 61, right associativity).

Definition when (b : bool) (m : M unit) : M unit :=
  if b then m else ret tt.

(** [errno] read as an rvalue. *)
Definition get_errno : M Z := fun s => (Returned (errno s), s).

(** [exit(status)]: the process ends; nothing after it runs. *)
Definition exit {A : Type} (status : Z) : M A := fun s => (Exited status, s).

Section Debug.

Variable L : libc.
Variable G : globals.

(** A stdio call that sends [text] to [stderr]. *)
Definition put (text : string) : M unit :=
  fun s => (Returned tt, mkState (stderr s ++ text) (stdio_errno L s text)).

(** [vfprintf(stderr, fmt, ap)]. *)
Definition vfprintf (fmt : string) (ap : va_list) : M Z :=
  let (text, r) := vformat L fmt ap in put text ;; ret r.

(** [fprintf(stderr, fmt, ...)], its result dropped as the source does. *)
Definition fprintf (fmt : string) (ap : va_list) : M unit :=
  vfprintf fmt ap ;; ret tt.

(** [fputc(c, stderr)]. *)
Definition fputc (c : ascii) : M unit := put (String c EmptyString).

(** ** The functions of debug.c *)

(** [warn(name, fmt, ...)], lines 155-193. *)
Definition warn (name fmt : option string) (ap : va_list) : M unit :=
  name <- match name with
          | None =>
              fprintf ("Warning: %s called with NULL name" ++ LF) [ArgStr "warn"] ;;
              ret "((NULL name))"
          | Some n => ret n
          end ;;
  fmt <- match fmt with
         | None =>
             fprintf ("Warning: %s called with NULL fmt" ++ LF) [ArgStr "warn"] ;;
             ret "((NULL fmt))"
         | Some f => ret f
         end ;;
  fprintf "Warning: %s: " [ArgStr name] ;;
  r <- vfprintf fmt ap ;;
  when (r <=? 0)
    (fprintf "[%s vfprintf returned error: %d]" [ArgStr "warn"; ArgInt r]) ;;
  fputc LF_char.

(** [msg(fmt, ...)], lines 56-89. *)
Definition msg (fmt : option string) (ap : va_list) : M unit :=
  fmt <- match fmt with
         | None =>
             warn (Some "msg") (Some "NULL fmt given to debug") [] ;;
             ret "((NULL fmt))"
         | Some f => ret f
         end ;;
  r <- vfprintf fmt ap ;;
  when (r <=? 0)
    (fprintf "[%s vfprintf returned error: %d]" [ArgStr "msg"; ArgInt r]) ;;
  fputc LF_char.

(** [dbg(level, fmt, ...)], lines 105-140. *)
Definition dbg (level : Z) (fmt : option string) (ap : va_list) : M unit :=
  fmt <- match fmt with
         | None =>
             warn (Some "dbg") (Some "NULL fmt given to debug") [] ;;
             ret "((NULL fmt))"
         | Some f => ret f
         end ;;
  when (level <=? debuglevel G)
    (r <- vfprintf fmt ap ;;
     when (r <=? 0)
       (fprintf "[%s vfprintf returned error: %d]" [ArgStr "dbg"; ArgInt r]) ;;
     fputc LF_char).

(** [warnp(name, fmt, ...)], lines 210-251. *)
Definition warnp (name fmt : option string) (ap : va_list) : M unit :=
  saved_errno <- get_errno ;;
  name <- match name with
          | None =>
              fprintf ("Warning: %s called with NULL name" ++ LF) [ArgStr "warnp"] ;;
              ret "((NULL name))"
          | Some n => ret n
          end ;;
  fmt <- match fmt with
         | None =>
             fprintf ("Warning: %s called with NULL fmt" ++ LF) [ArgStr "warnp"] ;;
             ret "((NULL fmt))"
         | Some f => ret f
         end ;;
  fprintf "Warning: %s: " [ArgStr name] ;;
  r <- vfprintf fmt ap ;;
  when (r <=? 0)
    (fprintf "[%s vfprintf returned error: %d]" [ArgStr "warnp"; ArgInt r]) ;;
  fputc LF_char ;;
  fprintf ("errno[%d]: %s" ++ LF) [ArgInt saved_errno; ArgStr (strerror L saved_errno)].

(** The exit code check of [err] and [errp] (lines 283-292 and 356-365):
    two separate tests, in this order. *)
Definition check_exitcode (func : string) (exitcode : Z) : M Z :=
  exitcode <- (if exitcode >=? 256 then
                 warn (Some func) (Some "called with exitcode >= 256: %d") [ArgInt exitcode] ;;
                 warn (Some func) (Some "forcing exit code: %d") [ArgInt FORCED_EXIT] ;;
                 ret FORCED_EXIT
               else ret exitcode) ;;
  if exitcode <? 0 then
    warn (Some func) (Some "called with exitcode < 0: %d") [ArgInt exitcode] ;;
    warn (Some func) (Some "forcing exit code: %d") [ArgInt FORCED_EXIT] ;;
    ret FORCED_EXIT
  else ret exitcode.

(** The exit code check of [usage_err] and [usage_errp] (lines 430-434 and
    511-515): one test. *)
Definition check_usage_exitcode (func : string) (exitcode : Z) : M Z :=
  if (exitcode <? 0) || (exitcode >=? 256) then
    warn (Some func) (Some "exitcode must be >= 0 && < 256: %d") [ArgInt exitcode] ;;
    warn (Some func) (Some "forcing exit code: %d") [ArgInt FORCED_EXIT] ;;
    ret FORCED_EXIT
  else ret exitcode.

(** The [NULL] checks on [name] and [fmt] shared by the four fatal
    functions (lines 293-300, 366-373, 435-442, 516-523). *)
Definition check_name (func : string) (name : option string) : M string :=
  match name with
  | None => warn (Some func) (Some "called with NULL name") [] ;; ret "((NULL name))"
  | Some n => ret n
  end.

Definition check_fmt (func : string) (fmt : option string) : M string :=
  match fmt with
  | None => warn (Some func) (Some "called with NULL fmt") [] ;; ret "((NULL fmt))"
  | Some f => ret f
  end.

(** [err(exitcode, name, fmt, ...)], lines 269-321. *)
Definition err (exitcode : Z) (name fmt : option string) (ap : va_list) : M unit :=
  exitcode <- check_exitcode "err" exitcode ;;
  name <- check_name "err" name ;;
  fmt <- check_fmt "err" fmt ;;
  fprintf "FATAL: %s: " [ArgStr name] ;;
  r <- vfprintf fmt ap ;;
  when (r <=? 0)
    (fprintf "[%s vfprintf returned error: %d]" [ArgStr "err"; ArgInt r]) ;;
  fputc LF_char ;;
  exit exitcode.

(** [errp(exitcode, name, fmt, ...)], lines 340-397.  The test of line 384
    reads [errno] as it is then; the line printed shows [saved_errno]. *)
Definition errp (exitcode : Z) (name fmt : option string) (ap : va_list) : M unit :=
  saved_errno <- get_errno ;;
  exitcode <- check_exitcode "errp" exitcode ;;
  name <- check_name "errp" name ;;
  fmt <- check_fmt "errp" fmt ;;
  fprintf "FATAL: %s: " [ArgStr name] ;;
  r <- vfprintf fmt ap ;;
  when (r <=? 0)
    (fprintf "[%s vfprintf returned error: %d]" [ArgStr "errp"; ArgInt r]) ;;
  fputc LF_char ;;
  e <- get_errno ;;
  when (negb (e =? 0))
    (fprintf ("errno[%d]: %s" ++ LF) [ArgInt saved_errno; ArgStr (strerror L saved_errno)]) ;;
  exit exitcode.

(** The usage help of lines 459-463 and 541-545. *)
Definition usage_help : M unit :=
  match program G with
  | None => fprintf ("For command line usage help, try using -h" ++ LF) []
  | Some p => fprintf ("For command line usage help, try: %s -h" ++ LF) [ArgStr p]
  end.

(** [usage_err(exitcode, name, fmt, ...)], lines 416-475. *)
Definition usage_err (exitcode : Z) (name fmt : option string) (ap : va_list) : M unit :=
  exitcode <- check_usage_exitcode "usage_err" exitcode ;;
  name <- check_name "usage_err" name ;;
  fmt <- check_fmt "usage_err" fmt ;;
  when (exitcode >? 0)
    (fprintf "FATAL: %s: " [ArgStr name] ;;
     r <- vfprintf fmt ap ;;
     when (r <=? 0)
       (fprintf "%s: vfprintf returned error: %d" [ArgStr "usage_err"; ArgInt r]) ;;
     fputc LF_char) ;;
  usage_help ;;
  fprintf ("version: %s" ++ LF) [ArgStr (version_string G)] ;;
  exit exitcode.

(** [usage_errp(exitcode, name, fmt, ...)], lines 495-557. *)
Definition usage_errp (exitcode : Z) (name fmt : option string) (ap : va_list) : M unit :=
  saved_errno <- get_errno ;;
  exitcode <- check_usage_exitcode "usage_errp" exitcode ;;
  name <- check_name "usage_errp" name ;;
  fmt <- check_fmt "usage_errp" fmt ;;
  when (exitcode >? 0)
    (fprintf "FATAL: %s: " [ArgStr name] ;;
     r <- vfprintf fmt ap ;;
     when (r <=? 0)
       (fprintf "%s: vfprintf returned error: %d" [ArgStr "usage_errp"; ArgInt r]) ;;
     fputc LF_char ;;
     fprintf ("errno[%d]: %s" ++ LF) [ArgInt saved_errno; ArgStr (strerror L saved_errno)]) ;;
  usage_help ;;
  fprintf "%s" [ArgStr (version_string G)] ;;
  exit exitcode.

End Debug.

(** ** Two concrete libraries *)

(** Descriptions of a few error codes, as [strerror] gives them on Linux. *)
Definition linux_strerror (e : Z) : string :=
  if e =? 0 then "Success"
  else if e =? 2 then "No such file or directory"
  else if e =? 13 then "Permission denied"
  else if e =? 25 then "Inappropriate ioctl for device"
  else "Unknown error " ++ dec e.

(** Formatted print by [c_format]; outside its domain the call fails
    having sent nothing. *)
Definition ref_vformat (fmt : string) (ap : va_list) : string * Z :=
  match c_format fmt ap with
  | Some text => (text, Z.of_nat (String.length text))
  | None => (EmptyString, -1)
  end.

(** A library whose stdio calls leave [errno] alone. *)
Definition quiet_libc : libc :=
  mkLibc ref_vformat linux_strerror (fun s _ => errno s).

(** A library whose stdio calls set [errno] to [ENOTTY] (25), as a stream
    that probes its descriptor with [isatty] does on a pipe or a file, the
    write itself succeeding. *)
Definition ENOTTY : Z := 25.

Definition probing_libc : libc :=
  mkLibc ref_vformat linux_strerror (fun _ _ => ENOTTY).

(** Sample globals and a fresh state for the instances of the theorems. *)
Definition sample_globals : globals := mkGlobals 2 (Some "prime") "1.0".
Definition fresh_state : state := mkState "" 0.

(** ** What a call writes

    [emits m s text o]: run from [s], the call [m] appends exactly [text]
    to [stderr] and has outcome [o].  [Emits] is the same from every
    state. *)
Definition emits {A : Type} (m : M A) (s : state) (text : string) (o : outcome A) : Prop :=
  fst (m s) = o /\ stderr (snd (m s)) = stderr s ++ text.

Definition Emits {A : Type} (m : M A) (text : string) (o : outcome A) : Prop :=
  forall s, emits m s text o.

(** The text of the "print the message" step of a function named [func]:
    what [vfprintf] sends, then the bracketed note when it returned a value
    [<= 0]. *)
Definition diag (func : string) (r : Z) : string :=
  if r <=? 0 then "[" ++ func ++ " vfprintf returned error: " ++ dec r ++ "]"
  else "".

(** The note of the two usage functions has no brackets. *)
Definition usage_diag (func : string) (r : Z) : string :=
  if r <=? 0 then func ++ ": vfprintf returned error: " ++ dec r
  else "".

Definition message (L : libc) (func fmt : string) (ap : va_list) : string :=
  fst (vformat L fmt ap) ++ diag func (snd (vformat L fmt ap)).

Definition usage_message (L : libc) (func fmt : string) (ap : va_list) : string :=
  fst (vformat L fmt ap) ++ usage_diag func (snd (vformat L fmt ap)).

(** The errno line of [warnp], [errp] and [usage_errp]. *)
Definition errno_line (L : libc) (e : Z) : string :=
  "errno[" ++ dec e ++ "]: " ++ strerror L e ++ LF.

(** The name and the format in force after the [NULL] checks. *)
Definition name_or_placeholder (name : option string) : string :=
  match name with Some n => n | None => "((NULL name))" end.

Definition fmt_or_placeholder (fmt : option string) : string :=
  match fmt with Some f => f | None => "((NULL fmt))" end.

(** ** The texts the functions write, under a conforming library *)

(** The line [warn] sends for a given name and format. *)
Definition warn_line (L : libc) (name fmt : string) (ap : va_list) : string :=
  "Warning: " ++ name ++ ": " ++ message L "warn" fmt ap ++ LF.

(** The notes of [warn] and [warnp] themselves for a [NULL] argument. *)
Definition self_null_name (func : string) (name : option string) : string :=
  match name with
  | None => "Warning: " ++ func ++ " called with NULL name" ++ LF
  | Some _ => ""
  end.

Definition self_null_fmt (func : string) (fmt : option string) : string :=
  match fmt with
  | None => "Warning: " ++ func ++ " called with NULL fmt" ++ LF
  | Some _ => ""
  end.

(** The warnings the other functions send through [warn] for a [NULL]
    argument. *)
Definition null_fmt_debug (func : string) (fmt : option string) : string :=
  match fmt with
  | None => "Warning: " ++ func ++ ": NULL fmt given to debug" ++ LF
  | Some _ => ""
  end.

Definition null_name_warning (func : string) (name : option string) : string :=
  match name with
  | None => "Warning: " ++ func ++ ": called with NULL name" ++ LF
  | Some _ => ""
  end.

Definition null_fmt_warning (func : string) (fmt : option string) : string :=
  match fmt with
  | None => "Warning: " ++ func ++ ": called with NULL fmt" ++ LF
  | Some _ => ""
  end.

(** The second warning of every exit code check. *)
Definition forcing_warning (func : string) : string :=
  "Warning: " ++ func ++ ": forcing exit code: 255" ++ LF.

(** The warnings of the exit code check of [err] and [errp]. *)
Definition range_warnings (func : string) (exitcode : Z) : string :=
  if exitcode >=? 256 then
    "Warning: " ++ func ++ ": called with exitcode >= 256: " ++ dec exitcode ++ LF
    ++ forcing_warning func
  else if exitcode <? 0 then
    "Warning: " ++ func ++ ": called with exitcode < 0: " ++ dec exitcode ++ LF
    ++ forcing_warning func
  else "".

(** The warnings of the exit code check of the usage functions. *)
Definition usage_range_warnings (func : string) (exitcode : Z) : string :=
  if (exitcode <? 0) || (exitcode >=? 256) then
    "Warning: " ++ func ++ ": exitcode must be >= 0 && < 256: " ++ dec exitcode ++ LF
    ++ forcing_warning func
  else "".

(** The status the process ends with. *)
Definition final_exitcode (exitcode : Z) : Z :=
  if (exitcode <? 0) || (exitcode >=? 256) then FORCED_EXIT else exitcode.

(** The help line of the usage functions. *)
Definition usage_line (G : globals) : string :=
  match program G with
  | None => "For command line usage help, try using -h" ++ LF
  | Some p => "For command line usage help, try: " ++ p ++ " -h" ++ LF
  end.

(** The fatal line of a function named [func]. *)
Definition fatal_line (L : libc) (func name fmt : string) (ap : va_list) : string :=
  "FATAL: " ++ name ++ ": " ++ message L func fmt ap ++ LF.

Definition usage_fatal_line (L : libc) (func name fmt : string) (ap : va_list) : string :=
  "FATAL: " ++ name ++ ": " ++ usage_message L func fmt ap ++ LF.

(** Outcomes alone, for any library: [results m a] when [m] returns [a]
    from every state, [exits m status] when it ends the process with
    [status] from every state. *)
Definition results {A : Type} (m : M A) (a : A) : Prop :=
  forall s, fst (m s) = Returned a.

Definition exits {A : Type} (m : M A) (status : Z) : Prop :=
  forall s, fst (m s) = Exited status.

(** The text of [errp] depends on the state through the test of line 384,
    which reads [errno] after the message has been written.  [preserves I m]
    says that a property [I] of [errno] survives the call [m];
    [emitsF I m f o] says that [m], entered with [I] true of [errno], writes
    [f live] for some value [live] of which [I] is true: the value [errno]
    has when it is tested. *)
Definition preserves {A : Type} (I : Z -> Prop) (m : M A) : Prop :=
  forall s, I (errno s) -> I (errno (snd (m s))).

Definition emitsF {A : Type} (I : Z -> Prop) (m : M A) (f : Z -> string)
    (o : outcome A) : Prop :=
  forall s, I (errno s) -> exists live, I live /\ emits m s (f live) o.

(** ** Strings *)

Lemma append_nil_r (s : string) : s ++ "" = s.
Proof. induction s as [|c s IH]; simpl; [reflexivity | now rewrite IH]. Qed.

Lemma append_assoc (a b c : string) : (a ++ b) ++ c = a ++ (b ++ c).
Proof. induction a as [|x a IH]; simpl; [reflexivity | now rewrite IH]. Qed.

Lemma length_append (a b : string) :
  String.length (a ++ b) = (String.length a + String.length b)%nat.
Proof. induction a as [|x a IH]; simpl; [reflexivity | now rewrite IH]. Qed.

Lemma append_same_l (s t : string) : s ++ t = s -> t = "".
Proof.
  intros H. assert (E : String.length (s ++ t) = String.length s) by now rewrite H.
  rewrite length_append in E. destruct t; [reflexivity | simpl in E; lia].
Qed.

Lemma append_inv_l (s t u : string) : s ++ t = s ++ u -> t = u.
Proof. induction s as [|c s IH]; simpl; intros H; [exact H | injection H; auto]. Qed.

(** ** Composition of calls *)

Lemma emits_bind {A B : Type} (m : M A) (k : A -> M B) s t1 t2 a o :
  emits m s t1 (Returned a) ->
  emits (k a) (snd (m s)) t2 o ->
  emits (bind m k) s (t1 ++ t2) o.
Proof.
  unfold emits, bind. destruct (m s) as [[a'|c] s']; simpl.
  - intros [H1 H2] [H3 H4]. injection H1 as ->. split; [exact H3|].
    now rewrite H4, H2, append_assoc.
  - intros [H1 _]. discriminate H1.
Qed.

Lemma Emits_bind {A B : Type} (m : M A) (k : A -> M B) t1 t2 a o :
  Emits m t1 (Returned a) -> Emits (k a) t2 o -> Emits (bind m k) (t1 ++ t2) o.
Proof. intros H1 H2 s. eapply emits_bind; [apply H1 | apply H2]. Qed.

Lemma Emits_ret {A : Type} (a : A) : Emits (ret a) "" (Returned a).
Proof. intros s. split; simpl; [reflexivity | now rewrite append_nil_r]. Qed.

Lemma Emits_exit {A : Type} (c : Z) : Emits (@exit A c) "" (Exited c).
Proof. intros s. split; simpl; [reflexivity | now rewrite append_nil_r]. Qed.

Lemma emits_get_errno {B : Type} (k : Z -> M B) s t o :
  emits (k (errno s)) s t o -> emits (bind get_errno k) s t o.
Proof. unfold emits, bind, get_errno. simpl. auto. Qed.

Lemma Emits_put (L : libc) (text : string) : Emits (put L text) text (Returned tt).
Proof. intros s. split; reflexivity. Qed.

Lemma Emits_vfprintf (L : libc) fmt ap :
  Emits (vfprintf L fmt ap) (fst (vformat L fmt ap)) (Returned (snd (vformat L fmt ap))).
Proof.
  intros s. unfold vfprintf. destruct (vformat L fmt ap) as [text r].
  split; reflexivity.
Qed.

Lemma Emits_fputc (L : libc) c : Emits (fputc L c) (String c "") (Returned tt).
Proof. apply Emits_put. Qed.

Lemma Emits_at {A : Type} (m : M A) t o s : Emits m t o -> emits m s t o.
Proof. intros H. apply H. Qed.

Lemma Emits_eq {A : Type} (m : M A) t t' o : t = t' -> Emits m t o -> Emits m t' o.
Proof. now intros ->. Qed.

Ltac string_eq :=
  cbn [append fst snd]; unfold LF;
  repeat (rewrite ?append_assoc, ?append_nil_r; cbn [append]);
  reflexivity.

Section Conforming.

Variable L : libc.
Hypothesis HL : conforms L.
Variable G : globals.

Lemma Emits_fprintf fmt ap text :
  c_format fmt ap = Some text -> Emits (fprintf L fmt ap) text (Returned tt).
Proof.
  intros H. unfold fprintf. eapply Emits_eq; cycle 1.
  - eapply Emits_bind; [apply Emits_vfprintf | apply Emits_ret].
  - rewrite (HL _ _ _ H). simpl. apply append_nil_r.
Qed.

Lemma message_conforming func fmt ap text :
  c_format fmt ap = Some text -> text <> "" -> message L func fmt ap = text.
Proof.
  intros H Hne. unfold message, diag. rewrite (HL _ _ _ H). simpl.
  destruct text as [|c text]; [contradiction|].
  assert (E : (Z.of_nat (String.length (String c text)) <=? 0) = false)
    by (apply Z.leb_gt; cbn [String.length]; lia).
  rewrite E. apply append_nil_r.
Qed.

Lemma c_format_diag func r :
  c_format "[%s vfprintf returned error: %d]" [ArgStr func; ArgInt r]
  = Some ("[" ++ func ++ " vfprintf returned error: " ++ dec r ++ "]").
Proof. reflexivity. Qed.

Lemma c_format_usage_diag func r :
  c_format "%s: vfprintf returned error: %d" [ArgStr func; ArgInt r]
  = Some (func ++ ": vfprintf returned error: " ++ dec r).
Proof. simpl. now rewrite append_nil_r. Qed.

Lemma c_format_errno_line e :
  c_format ("errno[%d]: %s" ++ LF) [ArgInt e; ArgStr (strerror L e)]
  = Some (errno_line L e).
Proof. reflexivity. Qed.

Lemma Emits_diag func r :
  Emits (when (r <=? 0)
           (fprintf L "[%s vfprintf returned error: %d]" [ArgStr func; ArgInt r]))
        (diag func r) (Returned tt).
Proof.
  unfold when, diag. destruct (r <=? 0).
  - apply Emits_fprintf, c_format_diag.
  - apply Emits_ret.
Qed.

Lemma Emits_usage_diag func r :
  Emits (when (r <=? 0)
           (fprintf L "%s: vfprintf returned error: %d" [ArgStr func; ArgInt r]))
        (usage_diag func r) (Returned tt).
Proof.
  unfold when, usage_diag. destruct (r <=? 0).
  - apply Emits_fprintf, c_format_usage_diag.
  - apply Emits_ret.
Qed.

(** The "print the message" step followed by the rest of the function. *)
Lemma Emits_print {B : Type} func fmt ap (k : M B) t o :
  Emits k t o ->
  Emits (r <- vfprintf L fmt ap ;;
         when (r <=? 0)
           (fprintf L "[%s vfprintf returned error: %d]" [ArgStr func; ArgInt r]) ;;
         k)
        (message L func fmt ap ++ t) o.
Proof.
  intros Hk. eapply Emits_eq; cycle 1.
  - eapply Emits_bind; [apply Emits_vfprintf|].
    eapply Emits_bind; [apply Emits_diag | exact Hk].
  - unfold message. now rewrite append_assoc.
Qed.

Lemma Emits_usage_print {B : Type} func fmt ap (k : M B) t o :
  Emits k t o ->
  Emits (r <- vfprintf L fmt ap ;;
         when (r <=? 0)
           (fprintf L "%s: vfprintf returned error: %d" [ArgStr func; ArgInt r]) ;;
         k)
        (usage_message L func fmt ap ++ t) o.
Proof.
  intros Hk. eapply Emits_eq; cycle 1.
  - eapply Emits_bind; [apply Emits_vfprintf|].
    eapply Emits_bind; [apply Emits_usage_diag | exact Hk].
  - unfold usage_message. now rewrite append_assoc.
Qed.

(** [warn]: the notes for [NULL] arguments, then the warning line. *)
Lemma warn_Emits name fmt ap :
  Emits (warn L name fmt ap)
        (self_null_name "warn" name ++ self_null_fmt "warn" fmt
         ++ warn_line L (name_or_placeholder name) (fmt_or_placeholder fmt) ap)
        (Returned tt).
Proof.
  unfold warn, warn_line. eapply Emits_eq; cycle 1.
  - eapply Emits_bind with (a := name_or_placeholder name)
                           (t1 := self_null_name "warn" name).
    { destruct name as [n|]; simpl.
      - apply Emits_ret.
      - eapply Emits_eq; cycle 1.
        + eapply Emits_bind; [apply Emits_fprintf; reflexivity | apply Emits_ret].
        + string_eq. }
    eapply Emits_bind with (a := fmt_or_placeholder fmt)
                           (t1 := self_null_fmt "warn" fmt).
    { destruct fmt as [f|]; simpl.
      - apply Emits_ret.
      - eapply Emits_eq; cycle 1.
        + eapply Emits_bind; [apply Emits_fprintf; reflexivity | apply Emits_ret].
        + string_eq. }
    eapply Emits_bind; [apply Emits_fprintf; reflexivity|].
    apply Emits_print. apply Emits_fputc.
  - string_eq.
Qed.

(** A warning the other functions send: the name is given and the format
    is a fixed one that [c_format] covers. *)
Lemma warn_fixed func fmt ap text :
  c_format fmt ap = Some text -> text <> "" ->
  Emits (warn L (Some func) (Some fmt) ap)
        ("Warning: " ++ func ++ ": " ++ text ++ LF) (Returned tt).
Proof.
  intros H Hne. eapply Emits_eq; [|apply warn_Emits].
  unfold warn_line. simpl. now rewrite (message_conforming _ _ _ _ H Hne).
Qed.

(** [msg] and [dbg]. *)
Lemma null_fmt_debug_Emits func fmt :
  Emits (match fmt with
         | None =>
             warn L (Some func) (Some "NULL fmt given to debug") [] ;;
             ret "((NULL fmt))"
         | Some f => ret f
         end)
        (null_fmt_debug func fmt) (Returned (fmt_or_placeholder fmt)).
Proof.
  destruct fmt as [f|]; simpl; [apply Emits_ret|].
  eapply Emits_eq; cycle 1.
  - eapply Emits_bind; [|apply Emits_ret].
    apply warn_fixed; [reflexivity | discriminate].
  - string_eq.
Qed.

Lemma msg_Emits fmt ap :
  Emits (msg L fmt ap)
        (null_fmt_debug "msg" fmt ++ message L "msg" (fmt_or_placeholder fmt) ap ++ LF)
        (Returned tt).
Proof.
  unfold msg. eapply Emits_bind; [apply null_fmt_debug_Emits|].
  apply Emits_print, Emits_fputc.
Qed.

Lemma dbg_Emits level fmt ap :
  Emits (dbg L G level fmt ap)
        (null_fmt_debug "dbg" fmt ++
         if level <=? debuglevel G
         then message L "dbg" (fmt_or_placeholder fmt) ap ++ LF
         else "")
        (Returned tt).
Proof.
  unfold dbg. eapply Emits_bind; [apply null_fmt_debug_Emits|].
  unfold when. destruct (level <=? debuglevel G).
  - apply Emits_print, Emits_fputc.
  - apply Emits_ret.
Qed.

(** [warnp]: as [warn], then the errno line of the value [errno] had when
    the function was entered. *)
Lemma warnp_emits name fmt ap s :
  emits (warnp L name fmt ap) s
        (self_null_name "warnp" name ++ self_null_fmt "warnp" fmt
         ++ "Warning: " ++ name_or_placeholder name ++ ": "
         ++ message L "warnp" (fmt_or_placeholder fmt) ap ++ LF
         ++ errno_line L (errno s))
        (Returned tt).
Proof.
  unfold warnp. apply emits_get_errno. generalize (errno s) as e. intros e.
  apply Emits_at.
  eapply Emits_eq; cycle 1.
  - eapply Emits_bind with (a := name_or_placeholder name)
                           (t1 := self_null_name "warnp" name).
    { destruct name as [n|]; simpl.
      - apply Emits_ret.
      - eapply Emits_eq; cycle 1.
        + eapply Emits_bind; [apply Emits_fprintf; reflexivity | apply Emits_ret].
        + string_eq. }
    eapply Emits_bind with (a := fmt_or_placeholder fmt)
                           (t1 := self_null_fmt "warnp" fmt).
    { destruct fmt as [f|]; simpl.
      - apply Emits_ret.
      - eapply Emits_eq; cycle 1.
        + eapply Emits_bind; [apply Emits_fprintf; reflexivity | apply Emits_ret].
        + string_eq. }
    eapply Emits_bind; [apply Emits_fprintf; reflexivity|].
    apply Emits_print.
    eapply Emits_bind; [apply Emits_fputc|].
    apply Emits_fprintf, c_format_errno_line.
  - string_eq.
Qed.

(** The checks of the fatal functions. *)
Lemma c_format_forcing :
  c_format "forcing exit code: %d" [ArgInt FORCED_EXIT] = Some "forcing exit code: 255".
Proof. reflexivity. Qed.

Lemma forcing_Emits func :
  Emits (warn L (Some func) (Some "forcing exit code: %d") [ArgInt FORCED_EXIT])
        (forcing_warning func) (Returned tt).
Proof. apply warn_fixed; [apply c_format_forcing | discriminate]. Qed.

Lemma forced_Emits func fmt exitcode text :
  c_format fmt [ArgInt exitcode] = Some (text ++ dec exitcode) -> text <> "" ->
  Emits (warn L (Some func) (Some fmt) [ArgInt exitcode] ;;
         warn L (Some func) (Some "forcing exit code: %d") [ArgInt FORCED_EXIT] ;;
         ret FORCED_EXIT)
        ("Warning: " ++ func ++ ": " ++ text ++ dec exitcode ++ LF ++ forcing_warning func)
        (Returned FORCED_EXIT).
Proof.
  intros H Hne. eapply Emits_eq; cycle 1.
  - eapply Emits_bind; [apply (warn_fixed func _ _ _ H)|].
    + destruct text; [contradiction | discriminate].
    + eapply Emits_bind; [apply forcing_Emits | apply Emits_ret].
  - string_eq.
Qed.

Lemma check_exitcode_Emits func exitcode :
  Emits (check_exitcode L func exitcode)
        (range_warnings func exitcode) (Returned (final_exitcode exitcode)).
Proof.
  unfold check_exitcode, range_warnings, final_exitcode.
  destruct (Z.geb_spec exitcode 256) as [Hge|Hlt].
  - replace (exitcode <? 0) with false by (symmetry; apply Z.ltb_ge; lia).
    cbn [orb]. eapply Emits_eq; cycle 1.
    + eapply Emits_bind.
      * apply forced_Emits with (text := "called with exitcode >= 256: ");
          [simpl; now rewrite append_nil_r | discriminate].
      * change (FORCED_EXIT <? 0) with false. cbv iota. apply Emits_ret.
    + string_eq.
  - rewrite orb_false_r. destruct (exitcode <? 0) eqn:Hneg.
    + eapply Emits_eq; cycle 1.
      * eapply Emits_bind; [apply Emits_ret|]. cbv beta. rewrite Hneg.
        apply forced_Emits with (text := "called with exitcode < 0: ");
          [simpl; now rewrite append_nil_r | discriminate].
      * string_eq.
    + eapply Emits_eq; cycle 1.
      * eapply Emits_bind; [apply Emits_ret|]. cbv beta. rewrite Hneg.
        apply Emits_ret.
      * reflexivity.
Qed.

Lemma check_usage_exitcode_Emits func exitcode :
  Emits (check_usage_exitcode L func exitcode)
        (usage_range_warnings func exitcode) (Returned (final_exitcode exitcode)).
Proof.
  unfold check_usage_exitcode, usage_range_warnings, final_exitcode.
  destruct ((exitcode <? 0) || (exitcode >=? 256)).
  - apply forced_Emits with (text := "exitcode must be >= 0 && < 256: ");
      [simpl; now rewrite append_nil_r | discriminate].
  - apply Emits_ret.
Qed.

Lemma check_name_Emits func name :
  Emits (check_name L func name)
        (null_name_warning func name) (Returned (name_or_placeholder name)).
Proof.
  destruct name as [n|]; simpl; [apply Emits_ret|].
  eapply Emits_eq; cycle 1.
  - eapply Emits_bind; [|apply Emits_ret].
    apply warn_fixed; [reflexivity | discriminate].
  - string_eq.
Qed.

Lemma check_fmt_Emits func fmt :
  Emits (check_fmt L func fmt)
        (null_fmt_warning func fmt) (Returned (fmt_or_placeholder fmt)).
Proof.
  destruct fmt as [f|]; simpl; [apply Emits_ret|].
  eapply Emits_eq; cycle 1.
  - eapply Emits_bind; [|apply Emits_ret].
    apply warn_fixed; [reflexivity | discriminate].
  - string_eq.
Qed.

(** [err]. *)
Lemma err_Emits exitcode name fmt ap :
  Emits (err L exitcode name fmt ap)
        (range_warnings "err" exitcode
         ++ null_name_warning "err" name ++ null_fmt_warning "err" fmt
         ++ fatal_line L "err" (name_or_placeholder name) (fmt_or_placeholder fmt) ap)
        (Exited (final_exitcode exitcode)).
Proof.
  unfold err, fatal_line. eapply Emits_eq; cycle 1.
  - eapply Emits_bind; [apply check_exitcode_Emits|].
    eapply Emits_bind; [apply check_name_Emits|].
    eapply Emits_bind; [apply check_fmt_Emits|].
    eapply Emits_bind; [apply Emits_fprintf; reflexivity|].
    apply Emits_print.
    eapply Emits_bind; [apply Emits_fputc | apply Emits_exit].
  - string_eq.
Qed.

(** [errp]. *)
Section ErrnoInvariant.

(** A property of [errno] that every stdio call of the library keeps. *)
Variable I : Z -> Prop.
Hypothesis HI : forall s text, I (errno s) -> I (stdio_errno L s text).

Lemma preserves_ret {A : Type} (a : A) : preserves I (ret a).
Proof. intros s H. exact H. Qed.

Lemma preserves_bind {A B : Type} (m : M A) (k : A -> M B) :
  preserves I m -> (forall a, preserves I (k a)) -> preserves I (bind m k).
Proof.
  intros Hm Hk s H. unfold bind. specialize (Hm s H).
  destruct (m s) as [[a|c] s']; simpl in *; [apply Hk, Hm | exact Hm].
Qed.

Lemma preserves_put text : preserves I (put L text).
Proof. intros s H. simpl. apply HI, H. Qed.

Lemma preserves_vfprintf fmt ap : preserves I (vfprintf L fmt ap).
Proof.
  unfold vfprintf. destruct (vformat L fmt ap) as [text r].
  apply preserves_bind; [apply preserves_put | intros _; apply preserves_ret].
Qed.

Lemma preserves_fprintf fmt ap : preserves I (fprintf L fmt ap).
Proof.
  apply preserves_bind; [apply preserves_vfprintf | intros _; apply preserves_ret].
Qed.

Lemma preserves_when b m : preserves I m -> preserves I (when b m).
Proof. intros H. destruct b; [exact H | apply preserves_ret]. Qed.

Ltac preserve :=
  repeat first
    [ apply preserves_ret
    | apply preserves_put
    | apply preserves_vfprintf
    | apply preserves_fprintf
    | apply preserves_when
    | apply preserves_bind; [|intros ?]
    | match goal with
      | |- preserves _ (match ?x with _ => _ end) => destruct x
      end ].

Lemma preserves_warn name fmt ap : preserves I (warn L name fmt ap).
Proof. unfold warn, fputc. preserve. Qed.

Lemma preserves_check_exitcode func exitcode :
  preserves I (check_exitcode L func exitcode).
Proof. unfold check_exitcode. preserve; apply preserves_warn. Qed.

Lemma preserves_check_name func name : preserves I (check_name L func name).
Proof. unfold check_name. preserve; apply preserves_warn. Qed.

Lemma preserves_check_fmt func fmt : preserves I (check_fmt L func fmt).
Proof. unfold check_fmt. preserve; apply preserves_warn. Qed.

Lemma emitsF_bind {A B : Type} (m : M A) (k : A -> M B) t1 f a o :
  Emits m t1 (Returned a) -> preserves I m -> emitsF I (k a) f o ->
  emitsF I (bind m k) (fun live => t1 ++ f live) o.
Proof.
  intros H1 Hp H2 s Hs. destruct (H2 (snd (m s)) (Hp s Hs)) as [live [Il Hl]].
  exists live. split; [exact Il|]. eapply emits_bind; [apply H1 | exact Hl].
Qed.

Lemma emitsF_eq {A : Type} (m : M A) (f g : Z -> string) o :
  (forall live, f live = g live) -> emitsF I m f o -> emitsF I m g o.
Proof.
  intros E H s Hs. destruct (H s Hs) as [live [Il Hl]].
  exists live. split; [exact Il|]. now rewrite <- E.
Qed.

Lemma errp_tail_emitsF saved exitcode :
  emitsF I (e <- get_errno ;;
            when (negb (e =? 0))
              (fprintf L ("errno[%d]: %s" ++ LF)
                 [ArgInt saved; ArgStr (strerror L saved)]) ;;
            @exit unit exitcode)
         (fun live => if live =? 0 then "" else errno_line L saved)
         (Exited exitcode).
Proof.
  intros s Hs. exists (errno s). split; [exact Hs|].
  apply emits_get_errno. apply Emits_at.
  destruct (errno s =? 0); simpl.
  - eapply Emits_eq; cycle 1.
    + eapply Emits_bind; [apply Emits_ret | apply Emits_exit].
    + reflexivity.
  - eapply Emits_eq; cycle 1.
    + eapply Emits_bind; [apply Emits_fprintf, c_format_errno_line | apply Emits_exit].
    + apply append_nil_r.
Qed.

(** [errp] entered in [s]: the errno line shows [errno s]; whether it is
    printed depends on [live]. *)
Lemma errp_emits_invariant exitcode name fmt ap s :
  I (errno s) ->
  exists live,
    I live /\
    emits (errp L exitcode name fmt ap) s
          (range_warnings "errp" exitcode
           ++ null_name_warning "errp" name ++ null_fmt_warning "errp" fmt
           ++ fatal_line L "errp" (name_or_placeholder name) (fmt_or_placeholder fmt) ap
           ++ if live =? 0 then "" else errno_line L (errno s))
          (Exited (final_exitcode exitcode)).
Proof.
  intros Hs. unfold errp, fatal_line.
  assert (H : @emitsF unit I
    (exitcode0 <- check_exitcode L "errp" exitcode ;;
     name0 <- check_name L "errp" name ;;
     fmt0 <- check_fmt L "errp" fmt ;;
     fprintf L "FATAL: %s: " [ArgStr name0] ;;
     r <- vfprintf L fmt0 ap ;;
     when (r <=? 0)
       (fprintf L "[%s vfprintf returned error: %d]" [ArgStr "errp"; ArgInt r]) ;;
     fputc L LF_char ;;
     e <- get_errno ;;
     when (negb (e =? 0))
       (fprintf L ("errno[%d]: %s" ++ LF)
          [ArgInt (errno s); ArgStr (strerror L (errno s))]) ;;
     exit exitcode0)
    (fun live =>
       range_warnings "errp" exitcode
       ++ null_name_warning "errp" name ++ null_fmt_warning "errp" fmt
       ++ ("FATAL: " ++ name_or_placeholder name ++ ": "
           ++ message L "errp" (fmt_or_placeholder fmt) ap ++ LF)
       ++ if live =? 0 then "" else errno_line L (errno s))
    (Exited (final_exitcode exitcode))).
  { eapply emitsF_eq; cycle 1.
    - eapply emitsF_bind;
        [apply check_exitcode_Emits | apply preserves_check_exitcode|].
      eapply emitsF_bind; [apply check_name_Emits | apply preserves_check_name|].
      eapply emitsF_bind; [apply check_fmt_Emits | apply preserves_check_fmt|].
      eapply emitsF_bind;
        [apply Emits_fprintf; reflexivity | apply preserves_fprintf|].
      eapply emitsF_bind; [apply Emits_vfprintf | apply preserves_vfprintf|].
      eapply emitsF_bind;
        [apply Emits_diag | apply preserves_when, preserves_fprintf|].
      eapply emitsF_bind; [apply Emits_fputc | apply preserves_put|].
      apply errp_tail_emitsF.
    - intros live. unfold message. string_eq. }
  destruct (H s Hs) as [live [Il Hl]]. exists live. split; [exact Il|].
  apply emits_get_errno. exact Hl.
Qed.

End ErrnoInvariant.

Lemma errp_emits exitcode name fmt ap s :
  exists live,
    emits (errp L exitcode name fmt ap) s
          (range_warnings "errp" exitcode
           ++ null_name_warning "errp" name ++ null_fmt_warning "errp" fmt
           ++ fatal_line L "errp" (name_or_placeholder name) (fmt_or_placeholder fmt) ap
           ++ if live =? 0 then "" else errno_line L (errno s))
          (Exited (final_exitcode exitcode)).
Proof.
  destruct (errp_emits_invariant (fun _ => True) (fun _ _ _ => Logic.I)
              exitcode name fmt ap s Logic.I) as [live [_ H]].
  exists live. exact H.
Qed.

(** On a library that never clears [errno], a nonzero [errno] on entry
    gets its line. *)
Lemma errp_line_when_errno_nonzero exitcode name fmt ap s :
  (forall s' text, errno s' <> 0 -> stdio_errno L s' text <> 0) ->
  errno s <> 0 ->
  emits (errp L exitcode name fmt ap) s
        (range_warnings "errp" exitcode
         ++ null_name_warning "errp" name ++ null_fmt_warning "errp" fmt
         ++ fatal_line L "errp" (name_or_placeholder name) (fmt_or_placeholder fmt) ap
         ++ errno_line L (errno s))
        (Exited (final_exitcode exitcode)).
Proof.
  intros Hsticky Hs.
  destruct (errp_emits_invariant (fun e => e <> 0) Hsticky exitcode name fmt ap s Hs)
    as [live [Hl H]].
  apply Z.eqb_neq in Hl. rewrite Hl in H. exact H.
Qed.

(** On a library whose stdio calls leave [errno] alone, the line is printed
    exactly when [errno] is nonzero on entry. *)
Lemma errp_line_on_undisturbed_errno exitcode name fmt ap s :
  (forall s' text, stdio_errno L s' text = errno s') ->
  emits (errp L exitcode name fmt ap) s
        (range_warnings "errp" exitcode
         ++ null_name_warning "errp" name ++ null_fmt_warning "errp" fmt
         ++ fatal_line L "errp" (name_or_placeholder name) (fmt_or_placeholder fmt) ap
         ++ if errno s =? 0 then "" else errno_line L (errno s))
        (Exited (final_exitcode exitcode)).
Proof.
  intros Hquiet.
  destruct (errp_emits_invariant (fun e => e = errno s)
              (fun s' text H => eq_trans (Hquiet s' text) H)
              exitcode name fmt ap s eq_refl) as [live [Hl H]].
  rewrite Hl in H. exact H.
Qed.

(** The usage functions. *)
Lemma usage_help_Emits : Emits (usage_help L G) (usage_line G) (Returned tt).
Proof.
  unfold usage_help, usage_line. destruct (program G) as [p|].
  - apply Emits_fprintf. reflexivity.
  - apply Emits_fprintf. reflexivity.
Qed.

Lemma usage_err_Emits exitcode name fmt ap :
  Emits (usage_err L G exitcode name fmt ap)
        (usage_range_warnings "usage_err" exitcode
         ++ null_name_warning "usage_err" name ++ null_fmt_warning "usage_err" fmt
         ++ (if final_exitcode exitcode >? 0
             then usage_fatal_line L "usage_err" (name_or_placeholder name)
                    (fmt_or_placeholder fmt) ap
             else "")
         ++ usage_line G ++ "version: " ++ version_string G ++ LF)
        (Exited (final_exitcode exitcode)).
Proof.
  unfold usage_err, usage_fatal_line. eapply Emits_eq; cycle 1.
  - eapply Emits_bind; [apply check_usage_exitcode_Emits|].
    eapply Emits_bind; [apply check_name_Emits|].
    eapply Emits_bind; [apply check_fmt_Emits|].
    eapply Emits_bind with
      (t1 := if final_exitcode exitcode >? 0
             then "FATAL: " ++ name_or_placeholder name ++ ": "
                  ++ usage_message L "usage_err" (fmt_or_placeholder fmt) ap ++ LF
             else "").
    { unfold when. destruct (final_exitcode exitcode >? 0); [|apply Emits_ret].
      eapply Emits_eq; cycle 1.
      - eapply Emits_bind; [apply Emits_fprintf; reflexivity|].
        apply Emits_usage_print, Emits_fputc.
      - string_eq. }
    eapply Emits_bind; [apply usage_help_Emits|].
    eapply Emits_bind; [apply Emits_fprintf; reflexivity | apply Emits_exit].
  - string_eq.
Qed.

Lemma usage_errp_emits exitcode name fmt ap s :
  emits (usage_errp L G exitcode name fmt ap) s
        (usage_range_warnings "usage_errp" exitcode
         ++ null_name_warning "usage_errp" name ++ null_fmt_warning "usage_errp" fmt
         ++ (if final_exitcode exitcode >? 0
             then usage_fatal_line L "usage_errp" (name_or_placeholder name)
                    (fmt_or_placeholder fmt) ap
                  ++ errno_line L (errno s)
             else "")
         ++ usage_line G ++ version_string G)
        (Exited (final_exitcode exitcode)).
Proof.
  unfold usage_errp, usage_fatal_line. apply emits_get_errno.
  generalize (errno s) as saved. intros saved. apply Emits_at.
  eapply Emits_eq; cycle 1.
  - eapply Emits_bind; [apply check_usage_exitcode_Emits|].
    eapply Emits_bind; [apply check_name_Emits|].
    eapply Emits_bind; [apply check_fmt_Emits|].
    eapply Emits_bind with
      (t1 := if final_exitcode exitcode >? 0
             then ("FATAL: " ++ name_or_placeholder name ++ ": "
                   ++ usage_message L "usage_errp" (fmt_or_placeholder fmt) ap ++ LF)
                  ++ errno_line L saved
             else "").
    { unfold when. destruct (final_exitcode exitcode >? 0); [|apply Emits_ret].
      eapply Emits_eq; cycle 1.
      - eapply Emits_bind; [apply Emits_fprintf; reflexivity|].
        apply Emits_usage_print.
        eapply Emits_bind; [apply Emits_fputc|].
        apply Emits_fprintf, c_format_errno_line.
      - string_eq. }
    eapply Emits_bind; [apply usage_help_Emits|].
    eapply Emits_bind; [apply Emits_fprintf; simpl; reflexivity | apply Emits_exit].
  - destruct (final_exitcode exitcode >? 0); string_eq.
Qed.

End Conforming.

(** ** Outcomes, whatever the library does *)

Section Outcomes.

Variable L : libc.
Variable G : globals.

Lemma results_ret {A : Type} (a : A) : results (ret a) a.
Proof. intros s. reflexivity. Qed.

Lemma results_bind {A B : Type} (m : M A) (k : A -> M B) a b :
  results m a -> results (k a) b -> results (bind m k) b.
Proof.
  intros Hm Hk s. unfold bind. specialize (Hm s).
  destruct (m s) as [[a'|c] s']; simpl in Hm; [|discriminate].
  injection Hm as ->. apply Hk.
Qed.

Lemma exits_bind {A B : Type} (m : M A) (k : A -> M B) a c :
  results m a -> exits (k a) c -> exits (bind m k) c.
Proof.
  intros Hm Hk s. unfold bind. specialize (Hm s).
  destruct (m s) as [[a'|c'] s']; simpl in Hm; [|discriminate].
  injection Hm as ->. apply Hk.
Qed.

Lemma results_get_errno {B : Type} (k : Z -> M B) b :
  (forall e, results (k e) b) -> results (bind get_errno k) b.
Proof. intros H s. apply (H (errno s) s). Qed.

Lemma exits_get_errno {B : Type} (k : Z -> M B) c :
  (forall e, exits (k e) c) -> exits (bind get_errno k) c.
Proof. intros H s. apply (H (errno s) s). Qed.

Lemma exits_exit {A : Type} (c : Z) : exits (@exit A c) c.
Proof. intros s. reflexivity. Qed.

Lemma results_put text : results (put L text) tt.
Proof. intros s. reflexivity. Qed.

Lemma results_vfprintf fmt ap :
  results (vfprintf L fmt ap) (snd (vformat L fmt ap)).
Proof.
  intros s. unfold vfprintf. destruct (vformat L fmt ap) as [text r]. reflexivity.
Qed.

Lemma results_fprintf fmt ap : results (fprintf L fmt ap) tt.
Proof.
  eapply results_bind; [apply results_vfprintf | apply results_ret].
Qed.

Lemma results_when b m : results m tt -> results (when b m) tt.
Proof. intros H. destruct b; [exact H | apply results_ret]. Qed.

Ltac returns :=
  first
    [ apply results_ret
    | apply results_put
    | apply results_vfprintf
    | apply results_fprintf
    | apply results_when; returns
    | apply results_get_errno; intros ?; returns
    | eapply results_bind; [returns | returns] ].

Ltac terminates :=
  first
    [ apply exits_exit
    | apply exits_get_errno; intros ?; terminates
    | eapply exits_bind; [returns | terminates] ].

Lemma results_warn name fmt ap : results (warn L name fmt ap) tt.
Proof. unfold warn, fputc. destruct name, fmt; returns. Qed.

Lemma results_warnp name fmt ap : results (warnp L name fmt ap) tt.
Proof. unfold warnp, fputc. destruct name, fmt; returns. Qed.

Lemma results_msg fmt ap : results (msg L fmt ap) tt.
Proof.
  unfold msg, fputc. destruct fmt.
  - returns.
  - eapply results_bind.
    + eapply results_bind; [apply results_warn | apply results_ret].
    + returns.
Qed.

Lemma results_dbg level fmt ap : results (dbg L G level fmt ap) tt.
Proof.
  unfold dbg, fputc. destruct fmt.
  - returns.
  - eapply results_bind.
    + eapply results_bind; [apply results_warn | apply results_ret].
    + returns.
Qed.

Lemma results_forced func fmt exitcode :
  results (warn L (Some func) (Some fmt) [ArgInt exitcode] ;;
           warn L (Some func) (Some "forcing exit code: %d") [ArgInt FORCED_EXIT] ;;
           ret FORCED_EXIT)
          FORCED_EXIT.
Proof.
  eapply results_bind; [apply results_warn|].
  eapply results_bind; [apply results_warn | apply results_ret].
Qed.

Lemma results_check_exitcode func exitcode :
  results (check_exitcode L func exitcode) (final_exitcode exitcode).
Proof.
  unfold check_exitcode, final_exitcode.
  destruct (exitcode >=? 256).
  - rewrite orb_true_r. eapply results_bind; [apply results_forced|].
    change (FORCED_EXIT <? 0) with false. cbv iota. apply results_ret.
  - rewrite orb_false_r. eapply results_bind; [apply results_ret|]. cbv beta.
    destruct (exitcode <? 0); [apply results_forced | apply results_ret].
Qed.

Lemma results_check_usage_exitcode func exitcode :
  results (check_usage_exitcode L func exitcode) (final_exitcode exitcode).
Proof.
  unfold check_usage_exitcode, final_exitcode.
  destruct ((exitcode <? 0) || (exitcode >=? 256));
    [apply results_forced | apply results_ret].
Qed.

Lemma results_check_name func name :
  results (check_name L func name) (name_or_placeholder name).
Proof.
  destruct name; simpl; [apply results_ret|].
  eapply results_bind; [apply results_warn | apply results_ret].
Qed.

Lemma results_check_fmt func fmt :
  results (check_fmt L func fmt) (fmt_or_placeholder fmt).
Proof.
  destruct fmt; simpl; [apply results_ret|].
  eapply results_bind; [apply results_warn | apply results_ret].
Qed.

Lemma results_usage_help : results (usage_help L G) tt.
Proof. unfold usage_help. destruct (program G); apply results_fprintf. Qed.

Ltac checks :=
  first
    [ eapply exits_bind; [apply results_check_exitcode|]
    | eapply exits_bind; [apply results_check_usage_exitcode|]
    | eapply exits_bind; [apply results_check_name|]
    | eapply exits_bind; [apply results_check_fmt|]
    | eapply exits_bind; [apply results_usage_help|]
    | apply exits_get_errno; intros ? ].

Lemma exits_err exitcode name fmt ap :
  exits (err L exitcode name fmt ap) (final_exitcode exitcode).
Proof. unfold err, fputc. repeat checks. terminates. Qed.

Lemma exits_errp exitcode name fmt ap :
  exits (errp L exitcode name fmt ap) (final_exitcode exitcode).
Proof. unfold errp, fputc. repeat checks. terminates. Qed.

Lemma exits_usage_err exitcode name fmt ap :
  exits (usage_err L G exitcode name fmt ap) (final_exitcode exitcode).
Proof.
  unfold usage_err, fputc. repeat checks.
  eapply exits_bind; [returns|]. repeat checks. terminates.
Qed.

Lemma exits_usage_errp exitcode name fmt ap :
  exits (usage_errp L G exitcode name fmt ap) (final_exitcode exitcode).
Proof.
  unfold usage_errp, fputc. repeat checks.
  eapply exits_bind; [returns|]. repeat checks. terminates.
Qed.

End Outcomes.

(** ** The concrete libraries conform *)

Lemma quiet_libc_conforms : conforms quiet_libc.
Proof. intros fmt ap text H. simpl. unfold ref_vformat. now rewrite H. Qed.

Lemma probing_libc_conforms : conforms probing_libc.
Proof. intros fmt ap text H. simpl. unfold ref_vformat. now rewrite H. Qed.

Lemma append_LF_nonempty (a : string) : a ++ LF <> "".
Proof. destruct a; discriminate. Qed.

(** The placeholder format has no directive: it prints as itself, whatever
    the arguments. *)
Lemma placeholder_message (L : libc) (func : string) (ap : va_list) :
  conforms L -> message L func "((NULL fmt))" ap = "((NULL fmt))".
Proof. intros HL. apply message_conforming; [exact HL | reflexivity | discriminate]. Qed.

Lemma placeholder_usage_message (L : libc) (func : string) (ap : va_list) :
  conforms L -> usage_message L func "((NULL fmt))" ap = "((NULL fmt))".
Proof.
  intros HL. unfold usage_message.
  rewrite (HL "((NULL fmt))" ap "((NULL fmt))" eq_refl). reflexivity.
Qed.

(** The value [errno] has at the test of line 384 is one the library can
    reach from the value on entry: it has every property [J] of [errno]
    that holds on entry and that every stdio call of the library keeps. *)
Lemma errp_emits_reachable (L : libc) exitcode name fmt ap s :
  conforms L ->
  exists live,
    (forall J : Z -> Prop,
       (forall s' text, J (errno s') -> J (stdio_errno L s' text)) ->
       J (errno s) -> J live) /\
    emits (errp L exitcode name fmt ap) s
          (range_warnings "errp" exitcode
           ++ null_name_warning "errp" name ++ null_fmt_warning "errp" fmt
           ++ fatal_line L "errp" (name_or_placeholder name) (fmt_or_placeholder fmt) ap
           ++ if live =? 0 then "" else errno_line L (errno s))
          (Exited (final_exitcode exitcode)).
Proof.
  intros HL.
  apply (errp_emits_invariant L HL
           (fun e => forall J : Z -> Prop,
                       (forall s' text, J (errno s') -> J (stdio_errno L s' text)) ->
                       J (errno s) -> J e)).
  - intros s' text He J HJ Hs. apply HJ, (He J HJ Hs).
  - intros J _ Hs. exact Hs.
Qed.

(** ** Properties of the reporting functions *)

(** C1.  The errno line of [errp] is printed when [errno] is nonzero at the
    test of line 384, after the message has been written, and not when the
    value saved on entry is nonzero: entered with [errno = 0] on a library
    whose stdio calls set [errno], [errp(1, "main", "boom")] prints the line
    "errno[0]: Success" although the captured code is zero. *)
Theorem errp_prints_errno_line_for_zero_saved_errno :
  errp probing_libc 1 (Some "main") (Some "boom") [] fresh_state
  = (Exited 1,
     mkState ("FATAL: main: boom" ++ LF ++ "errno[0]: Success" ++ LF) ENOTTY).
Proof. vm_compute. reflexivity. Qed.

(** C2.  [dbg] with a format that is not [NULL] writes the formatted
    message followed by a newline exactly when the requested level is at
    most the verbosity level [debuglevel], and otherwise writes nothing and
    leaves the state as it was.  (Between the message and the newline comes
    the note of a [vfprintf] that returned a value [<= 0]; there is none
    when it returned a positive count.) *)
Theorem dbg_writes_iff_level_le_debuglevel
    (L : libc) (G : globals) (level : Z) (fmt : string) (ap : va_list) (s : state) :
  conforms L ->
  let text := fst (vformat L fmt ap) in
  let r := snd (vformat L fmt ap) in
  let out := dbg L G level (Some fmt) ap s in
  fst out = Returned tt /\
  (level <= debuglevel G ->
     stderr (snd out) = stderr s ++ text ++ diag "dbg" r ++ LF) /\
  (0 < r -> diag "dbg" r = "") /\
  (~ level <= debuglevel G -> snd out = s) /\
  (stderr (snd out) <> stderr s <-> level <= debuglevel G).
Proof.
  intros HL text r out.
  pose proof (dbg_Emits L HL G level (Some fmt) ap s) as [Ho Ht].
  fold out in Ho, Ht. cbn [null_fmt_debug fmt_or_placeholder append] in Ht.
  assert (Hclosed : ~ level <= debuglevel G -> snd out = s).
  { intros Hgt. unfold out, dbg, bind, ret, when.
    destruct (Z.leb_spec level (debuglevel G)); [contradiction | reflexivity]. }
  assert (Hopen : level <= debuglevel G ->
                  stderr (snd out) = stderr s ++ text ++ diag "dbg" r ++ LF).
  { intros Hle. rewrite Ht.
    destruct (Z.leb_spec level (debuglevel G)); [|lia].
    unfold message. fold text r. now rewrite append_assoc. }
  repeat split; auto.
  - intros Hr. unfold diag. destruct (Z.leb_spec r 0); [lia | reflexivity].
  - intros Hne. destruct (Z.le_gt_cases level (debuglevel G)) as [Hle|Hgt]; [exact Hle|].
    exfalso. apply Hne. rewrite Hclosed; [reflexivity | lia].
  - intros Hle Heq. rewrite (Hopen Hle) in Heq. apply append_same_l in Heq.
    rewrite <- append_assoc in Heq. exact (append_LF_nonempty _ Heq).
Qed.

Lemma dbg_writes_iff_level_le_debuglevel_witness :
  conforms quiet_libc /\
  stderr (snd (dbg quiet_libc sample_globals 1 (Some "x = %d") [ArgInt 5] fresh_state))
  = "x = 5" ++ LF.
Proof.
  split; [exact quiet_libc_conforms|].
  destruct (dbg_writes_iff_level_le_debuglevel quiet_libc sample_globals 1 "x = %d"
              [ArgInt 5] fresh_state quiet_libc_conforms) as (_ & Hopen & _).
  rewrite Hopen; [reflexivity | simpl; lia].
Defined.

(** C3.  [warnp], [errp] and [usage_errp] read [errno] first, before any
    other call, and the errno line they print shows that value and its
    description, whatever the library does to [errno] during the warnings
    and prints of the call itself: the line is [errno_line L (errno s)] for
    the state [s] the function was entered in.  [warnp] always prints it,
    [usage_errp] whenever it prints its fatal line.  [errp] prints it when
    the value [live] that [errno] has after the message is nonzero; [live]
    is a value the stdio calls of the library lead to from the value on
    entry, so that it is the value on entry when they leave [errno] alone,
    and nonzero when the value on entry is and they never clear it. *)
Theorem errno_line_shows_errno_at_entry
    (L : libc) (G : globals) (exitcode : Z) (name fmt : option string)
    (ap : va_list) (s : state) :
  conforms L ->
  emits (warnp L name fmt ap) s
        (self_null_name "warnp" name ++ self_null_fmt "warnp" fmt
         ++ "Warning: " ++ name_or_placeholder name ++ ": "
         ++ message L "warnp" (fmt_or_placeholder fmt) ap ++ LF
         ++ errno_line L (errno s))
        (Returned tt) /\
  (exists live,
     (forall J : Z -> Prop,
        (forall s' text, J (errno s') -> J (stdio_errno L s' text)) ->
        J (errno s) -> J live) /\
     emits (errp L exitcode name fmt ap) s
           (range_warnings "errp" exitcode
            ++ null_name_warning "errp" name ++ null_fmt_warning "errp" fmt
            ++ fatal_line L "errp" (name_or_placeholder name) (fmt_or_placeholder fmt) ap
            ++ if live =? 0 then "" else errno_line L (errno s))
           (Exited (final_exitcode exitcode))) /\
  ((forall s' text, errno s' <> 0 -> stdio_errno L s' text <> 0) ->
   errno s <> 0 ->
   emits (errp L exitcode name fmt ap) s
         (range_warnings "errp" exitcode
          ++ null_name_warning "errp" name ++ null_fmt_warning "errp" fmt
          ++ fatal_line L "errp" (name_or_placeholder name) (fmt_or_placeholder fmt) ap
          ++ errno_line L (errno s))
         (Exited (final_exitcode exitcode))) /\
  emits (usage_errp L G exitcode name fmt ap) s
        (usage_range_warnings "usage_errp" exitcode
         ++ null_name_warning "usage_errp" name ++ null_fmt_warning "usage_errp" fmt
         ++ (if final_exitcode exitcode >? 0
             then usage_fatal_line L "usage_errp" (name_or_placeholder name)
                    (fmt_or_placeholder fmt) ap
                  ++ errno_line L (errno s)
             else "")
         ++ usage_line G ++ version_string G)
        (Exited (final_exitcode exitcode)).
Proof.
  intros HL. split; [|split; [|split]].
  - apply warnp_emits, HL.
  - apply errp_emits_reachable, HL.
  - intros Hsticky Hs.
    destruct (errp_emits_reachable L exitcode name fmt ap s HL) as [live [HJ H]].
    pose proof (HJ (fun e => e <> 0) Hsticky Hs) as Hl.
    apply Z.eqb_neq in Hl. rewrite Hl in H. exact H.
  - apply usage_errp_emits, HL.
Qed.

Lemma errno_line_shows_errno_at_entry_witness :
  conforms probing_libc /\
  stderr (snd (warnp probing_libc None (Some "cannot read %s") [ArgStr "primes.txt"]
                 (mkState "" 13)))
  = "Warning: warnp called with NULL name" ++ LF
    ++ "Warning: ((NULL name)): cannot read primes.txt" ++ LF
    ++ "errno[13]: Permission denied" ++ LF /\
  ((forall s' text, errno s' <> 0 -> stdio_errno probing_libc s' text <> 0) /\
   errno (mkState "" 13) <> 0 /\
   emits (errp probing_libc 1 None (Some "cannot read %s") [ArgStr "primes.txt"])
         (mkState "" 13)
         ("Warning: errp: called with NULL name" ++ LF
          ++ "FATAL: ((NULL name)): cannot read primes.txt" ++ LF
          ++ "errno[13]: Permission denied" ++ LF)
         (Exited 1)).
Proof.
  assert (H1 : forall s' text, errno s' <> 0 -> stdio_errno probing_libc s' text <> 0)
    by (intros s' text _; discriminate).
  assert (H2 : errno (mkState "" 13) <> 0) by discriminate.
  destruct (errno_line_shows_errno_at_entry probing_libc sample_globals 1 None
              (Some "cannot read %s") [ArgStr "primes.txt"] (mkState "" 13)
              probing_libc_conforms) as ((_ & Hw) & _ & He & _).
  split; [exact probing_libc_conforms|]. split; [rewrite Hw; reflexivity|].
  split; [exact H1|]. split; [exact H2|]. exact (He H1 H2).
Defined.

(** C4.  The four fatal functions end the process with the requested exit
    code when it lies in [0, 255].  When it does not, they send two
    warnings through [warn], the first showing the rejected value and the
    second the forced value 255, before anything else, and end the process
    with status 255. *)
Theorem fatal_exit_code_forced_when_out_of_range
    (L : libc) (G : globals) (exitcode : Z) (name fmt : option string)
    (ap : va_list) (s : state) :
  conforms L ->
  (0 <= exitcode <= 255 ->
     emits (err L exitcode name fmt ap) s
           (null_name_warning "err" name ++ null_fmt_warning "err" fmt
            ++ fatal_line L "err" (name_or_placeholder name) (fmt_or_placeholder fmt) ap)
           (Exited exitcode) /\
     fst (errp L exitcode name fmt ap s) = Exited exitcode /\
     fst (usage_err L G exitcode name fmt ap s) = Exited exitcode /\
     fst (usage_errp L G exitcode name fmt ap s) = Exited exitcode) /\
  (exitcode < 0 \/ 255 < exitcode ->
     emits (err L exitcode name fmt ap) s
           (("Warning: err: called with exitcode "
             ++ (if exitcode <? 0 then "< 0: " else ">= 256: ") ++ dec exitcode ++ LF)
            ++ ("Warning: err: forcing exit code: 255" ++ LF)
            ++ null_name_warning "err" name ++ null_fmt_warning "err" fmt
            ++ fatal_line L "err" (name_or_placeholder name) (fmt_or_placeholder fmt) ap)
           (Exited 255) /\
     (exists live,
        emits (errp L exitcode name fmt ap) s
              (("Warning: errp: called with exitcode "
                ++ (if exitcode <? 0 then "< 0: " else ">= 256: ") ++ dec exitcode ++ LF)
               ++ ("Warning: errp: forcing exit code: 255" ++ LF)
               ++ null_name_warning "errp" name ++ null_fmt_warning "errp" fmt
               ++ fatal_line L "errp" (name_or_placeholder name) (fmt_or_placeholder fmt) ap
               ++ if live =? 0 then "" else errno_line L (errno s))
              (Exited 255)) /\
     emits (usage_err L G exitcode name fmt ap) s
           (("Warning: usage_err: exitcode must be >= 0 && < 256: " ++ dec exitcode ++ LF)
            ++ ("Warning: usage_err: forcing exit code: 255" ++ LF)
            ++ null_name_warning "usage_err" name ++ null_fmt_warning "usage_err" fmt
            ++ usage_fatal_line L "usage_err" (name_or_placeholder name)
                 (fmt_or_placeholder fmt) ap
            ++ usage_line G ++ "version: " ++ version_string G ++ LF)
           (Exited 255) /\
     emits (usage_errp L G exitcode name fmt ap) s
           (("Warning: usage_errp: exitcode must be >= 0 && < 256: " ++ dec exitcode ++ LF)
            ++ ("Warning: usage_errp: forcing exit code: 255" ++ LF)
            ++ null_name_warning "usage_errp" name ++ null_fmt_warning "usage_errp" fmt
            ++ (usage_fatal_line L "usage_errp" (name_or_placeholder name)
                  (fmt_or_placeholder fmt) ap
                ++ errno_line L (errno s))
            ++ usage_line G ++ version_string G)
           (Exited 255)).
Proof.
  intros HL.
  pose proof (err_Emits L HL exitcode name fmt ap s) as He.
  pose proof (errp_emits L HL exitcode name fmt ap s) as [live Hp].
  pose proof (usage_err_Emits L HL G exitcode name fmt ap s) as Hu.
  pose proof (usage_errp_emits L HL G exitcode name fmt ap s) as Hup.
  unfold range_warnings in He, Hp.
  unfold usage_range_warnings in Hu, Hup.
  unfold final_exitcode, forcing_warning in *.
  split.
  - intros [Hlo Hhi].
    assert (E1 : (exitcode <? 0) = false) by (apply Z.ltb_ge; lia).
    assert (E2 : (exitcode >=? 256) = false)
      by (rewrite Z.geb_leb; apply Z.leb_gt; lia).
    rewrite E1, E2 in *. cbn [orb append] in *.
    repeat split; try apply Hp; try apply Hu; try apply Hup; try apply He.
  - intros Hout.
    assert (E : (exitcode <? 0) || (exitcode >=? 256) = true).
    { destruct Hout as [Hneg|Hbig].
      - replace (exitcode <? 0) with true by (symmetry; apply Z.ltb_lt; lia).
        reflexivity.
      - replace (exitcode >=? 256) with true
          by (symmetry; rewrite Z.geb_leb; apply Z.leb_le; lia).
        apply orb_true_r. }
    rewrite E in *. change (FORCED_EXIT >? 0) with true in *. cbv iota in *.
    change FORCED_EXIT with 255 in *.
    assert (Hw : forall func,
      (if exitcode >=? 256
       then "Warning: " ++ func ++ ": called with exitcode >= 256: " ++ dec exitcode ++ LF
            ++ "Warning: " ++ func ++ ": forcing exit code: 255" ++ LF
       else if exitcode <? 0
            then "Warning: " ++ func ++ ": called with exitcode < 0: " ++ dec exitcode ++ LF
                 ++ "Warning: " ++ func ++ ": forcing exit code: 255" ++ LF
            else "")
      = ("Warning: " ++ func ++ ": called with exitcode "
         ++ (if exitcode <? 0 then "< 0: " else ">= 256: ") ++ dec exitcode ++ LF)
        ++ "Warning: " ++ func ++ ": forcing exit code: 255" ++ LF).
    { intros func. destruct (Z.geb_spec exitcode 256) as [Hge|Hlt].
      - replace (exitcode <? 0) with false by (symmetry; apply Z.ltb_ge; lia).
        string_eq.
      - rewrite orb_false_r in E. rewrite E. string_eq. }
    rewrite Hw in He, Hp.
    split; [|split; [|split]].
    + destruct He as [H1 H2]. split; [exact H1|]. rewrite H2. f_equal. string_eq.
    + exists live. destruct Hp as [H1 H2]. split; [exact H1|]. rewrite H2.
      f_equal. string_eq.
    + destruct Hu as [H1 H2]. split; [exact H1|]. rewrite H2. f_equal. string_eq.
    + destruct Hup as [H1 H2]. split; [exact H1|]. rewrite H2. f_equal. string_eq.
Qed.

Lemma fatal_exit_code_forced_when_out_of_range_witness :
  conforms quiet_libc /\
  (0 <= 99 <= 255 /\
   emits (err quiet_libc 99 (Some "open") (Some "cannot open %s") [ArgStr "file.txt"])
         fresh_state
         ("FATAL: open: cannot open file.txt" ++ LF)
         (Exited 99)) /\
  ((1000 < 0 \/ 255 < 1000) /\
   emits (err quiet_libc 1000 (Some "open") (Some "cannot open %s") [ArgStr "file.txt"])
         fresh_state
         ("Warning: err: called with exitcode >= 256: 1000" ++ LF
          ++ "Warning: err: forcing exit code: 255" ++ LF
          ++ "FATAL: open: cannot open file.txt" ++ LF)
         (Exited 255)).
Proof.
  split; [exact quiet_libc_conforms|]. split.
  - assert (Hin : 0 <= 99 <= 255) by lia. split; [exact Hin|].
    exact (proj1 (proj1 (fatal_exit_code_forced_when_out_of_range quiet_libc
                           sample_globals 99 (Some "open") (Some "cannot open %s")
                           [ArgStr "file.txt"] fresh_state quiet_libc_conforms) Hin)).
  - assert (Hout : 1000 < 0 \/ 255 < 1000) by (right; lia). split; [exact Hout|].
    exact (proj1 (proj2 (fatal_exit_code_forced_when_out_of_range quiet_libc
                           sample_globals 1000 (Some "open") (Some "cannot open %s")
                           [ArgStr "file.txt"] fresh_state quiet_libc_conforms) Hout)).
Defined.

(** C5.  Called with exit code 0, [usage_err] and [usage_errp] print no
    "FATAL" line and no errno line: after the warnings for a [NULL] name or
    format, if any, they write the usage help line (naming the program
    when [program] is set, the generic line otherwise) and the version
    string, and end the process with status 0. *)
Theorem usage_exit_code_zero_prints_help_only
    (L : libc) (G : globals) (name fmt : option string) (ap : va_list) (s : state) :
  conforms L ->
  emits (usage_err L G 0 name fmt ap) s
        (null_name_warning "usage_err" name ++ null_fmt_warning "usage_err" fmt
         ++ match program G with
            | None => "For command line usage help, try using -h" ++ LF
            | Some p => "For command line usage help, try: " ++ p ++ " -h" ++ LF
            end
         ++ "version: " ++ version_string G ++ LF)
        (Exited 0) /\
  emits (usage_errp L G 0 name fmt ap) s
        (null_name_warning "usage_errp" name ++ null_fmt_warning "usage_errp" fmt
         ++ match program G with
            | None => "For command line usage help, try using -h" ++ LF
            | Some p => "For command line usage help, try: " ++ p ++ " -h" ++ LF
            end
         ++ version_string G)
        (Exited 0).
Proof.
  intros HL. split.
  - exact (usage_err_Emits L HL G 0 name fmt ap s).
  - exact (usage_errp_emits L HL G 0 name fmt ap s).
Qed.

Lemma usage_exit_code_zero_prints_help_only_witness :
  conforms quiet_libc /\
  emits (usage_err quiet_libc sample_globals 0 (Some "main") (Some "bad flag %s")
           [ArgStr "-x"])
        (mkState "" 2)
        ("For command line usage help, try: prime -h" ++ LF ++ "version: 1.0" ++ LF)
        (Exited 0).
Proof.
  split; [exact quiet_libc_conforms|].
  exact (proj1 (usage_exit_code_zero_prints_help_only quiet_libc sample_globals
                  (Some "main") (Some "bad flag %s") [ArgStr "-x"] (mkState "" 2)
                  quiet_libc_conforms)).
Defined.

(** C6.  [msg], [dbg], [warn] and [warnp] return to their caller on every
    input and with every library; [err], [errp], [usage_err] and
    [usage_errp] end the process on every input and with every library,
    and do so after all of their output has been written: the warnings of
    the checks and the fatal line for [err] and [errp] (then the errno line
    of [errp] when [errno] is nonzero at its test), the warnings, the fatal
    line when the exit code is not 0, the usage help and the version for
    the two usage functions. *)
Theorem reporting_returns_and_fatal_exits
    (L : libc) (G : globals) (level exitcode : Z) (name fmt : option string)
    (ap : va_list) (s : state) :
  fst (msg L fmt ap s) = Returned tt /\
  fst (dbg L G level fmt ap s) = Returned tt /\
  fst (warn L name fmt ap s) = Returned tt /\
  fst (warnp L name fmt ap s) = Returned tt /\
  fst (err L exitcode name fmt ap s) = Exited (final_exitcode exitcode) /\
  fst (errp L exitcode name fmt ap s) = Exited (final_exitcode exitcode) /\
  fst (usage_err L G exitcode name fmt ap s) = Exited (final_exitcode exitcode) /\
  fst (usage_errp L G exitcode name fmt ap s) = Exited (final_exitcode exitcode) /\
  (conforms L ->
   stderr (snd (err L exitcode name fmt ap s))
   = stderr s
     ++ range_warnings "err" exitcode
     ++ null_name_warning "err" name ++ null_fmt_warning "err" fmt
     ++ "FATAL: " ++ name_or_placeholder name ++ ": "
     ++ message L "err" (fmt_or_placeholder fmt) ap ++ LF /\
   (exists live,
      (forall J : Z -> Prop,
         (forall s' text, J (errno s') -> J (stdio_errno L s' text)) ->
         J (errno s) -> J live) /\
      stderr (snd (errp L exitcode name fmt ap s))
      = stderr s
        ++ range_warnings "errp" exitcode
        ++ null_name_warning "errp" name ++ null_fmt_warning "errp" fmt
        ++ ("FATAL: " ++ name_or_placeholder name ++ ": "
            ++ message L "errp" (fmt_or_placeholder fmt) ap ++ LF)
        ++ if live =? 0 then "" else errno_line L (errno s)) /\
   stderr (snd (usage_err L G exitcode name fmt ap s))
   = stderr s
     ++ usage_range_warnings "usage_err" exitcode
     ++ null_name_warning "usage_err" name ++ null_fmt_warning "usage_err" fmt
     ++ (if final_exitcode exitcode >? 0
         then "FATAL: " ++ name_or_placeholder name ++ ": "
              ++ usage_message L "usage_err" (fmt_or_placeholder fmt) ap ++ LF
         else "")
     ++ usage_line G ++ "version: " ++ version_string G ++ LF /\
   stderr (snd (usage_errp L G exitcode name fmt ap s))
   = stderr s
     ++ usage_range_warnings "usage_errp" exitcode
     ++ null_name_warning "usage_errp" name ++ null_fmt_warning "usage_errp" fmt
     ++ (if final_exitcode exitcode >? 0
         then ("FATAL: " ++ name_or_placeholder name ++ ": "
               ++ usage_message L "usage_errp" (fmt_or_placeholder fmt) ap ++ LF)
              ++ errno_line L (errno s)
         else "")
     ++ usage_line G ++ version_string G).
Proof.
  split; [apply results_msg|].
  split; [apply results_dbg|].
  split; [apply results_warn|].
  split; [apply results_warnp|].
  split; [apply exits_err|].
  split; [apply exits_errp|].
  split; [apply exits_usage_err|].
  split; [apply exits_usage_errp|].
  intros HL. split; [|split; [|split]].
  - exact (proj2 (err_Emits L HL exitcode name fmt ap s)).
  - destruct (errp_emits_reachable L exitcode name fmt ap s HL) as [live [HJ [_ H]]].
    exists live. split; [exact HJ | exact H].
  - exact (proj2 (usage_err_Emits L HL G exitcode name fmt ap s)).
  - exact (proj2 (usage_errp_emits L HL G exitcode name fmt ap s)).
Qed.

Lemma reporting_returns_and_fatal_exits_witness :
  conforms quiet_libc /\
  fst (warn quiet_libc (Some "scan") (Some "skipped %d lines") [ArgInt 3] fresh_state)
  = Returned tt /\
  fst (usage_err quiet_libc sample_globals 7 (Some "scan") (Some "no input") []
         fresh_state)
  = Exited 7 /\
  stderr (snd (usage_err quiet_libc sample_globals 7 (Some "scan") (Some "no input") []
                 fresh_state))
  = "FATAL: scan: no input" ++ LF
    ++ "For command line usage help, try: prime -h" ++ LF
    ++ "version: 1.0" ++ LF.
Proof.
  split; [exact quiet_libc_conforms|].
  destruct (reporting_returns_and_fatal_exits quiet_libc sample_globals 0 7
              (Some "scan") (Some "skipped %d lines") [ArgInt 3] fresh_state)
    as (_ & _ & Hw & _).
  destruct (reporting_returns_and_fatal_exits quiet_libc sample_globals 0 7
              (Some "scan") (Some "no input") [] fresh_state)
    as (_ & _ & _ & _ & _ & _ & He & _ & Ht).
  split; [exact Hw|]. split; [exact He|].
  destruct (Ht quiet_libc_conforms) as (_ & _ & Hu & _).
  rewrite Hu. reflexivity.
Defined.

(** C7.  A [NULL] name or format never ends a call by itself.  Every
    function first sends a warning that notes it ([self_null_name] and
    [self_null_fmt] for [warn] and [warnp], which print it themselves;
    [null_fmt_debug], [null_name_warning] and [null_fmt_warning] for the
    others, which go through [warn]), then goes on with the placeholder
    "((NULL name))" or "((NULL fmt))" in its place; the placeholder format
    prints as itself wherever the message is written.  The four reporting
    functions return and the four fatal ones end the process with the
    status they have for any other name and format. *)
Theorem null_name_and_fmt_are_replaced
    (L : libc) (G : globals) (level exitcode : Z) (name fmt : option string)
    (ap : va_list) (s : state) :
  conforms L ->
  (forall func, message L func "((NULL fmt))" ap = "((NULL fmt))") /\
  (forall func, usage_message L func "((NULL fmt))" ap = "((NULL fmt))") /\
  emits (msg L fmt ap) s
        (null_fmt_debug "msg" fmt
         ++ message L "msg" (fmt_or_placeholder fmt) ap ++ LF)
        (Returned tt) /\
  emits (dbg L G level fmt ap) s
        (null_fmt_debug "dbg" fmt
         ++ if level <=? debuglevel G
            then message L "dbg" (fmt_or_placeholder fmt) ap ++ LF
            else "")
        (Returned tt) /\
  emits (warn L name fmt ap) s
        (self_null_name "warn" name ++ self_null_fmt "warn" fmt
         ++ "Warning: " ++ name_or_placeholder name ++ ": "
         ++ message L "warn" (fmt_or_placeholder fmt) ap ++ LF)
        (Returned tt) /\
  emits (warnp L name fmt ap) s
        (self_null_name "warnp" name ++ self_null_fmt "warnp" fmt
         ++ "Warning: " ++ name_or_placeholder name ++ ": "
         ++ message L "warnp" (fmt_or_placeholder fmt) ap ++ LF
         ++ errno_line L (errno s))
        (Returned tt) /\
  emits (err L exitcode name fmt ap) s
        (range_warnings "err" exitcode
         ++ null_name_warning "err" name ++ null_fmt_warning "err" fmt
         ++ "FATAL: " ++ name_or_placeholder name ++ ": "
         ++ message L "err" (fmt_or_placeholder fmt) ap ++ LF)
        (Exited (final_exitcode exitcode)) /\
  (exists live,
     emits (errp L exitcode name fmt ap) s
           (range_warnings "errp" exitcode
            ++ null_name_warning "errp" name ++ null_fmt_warning "errp" fmt
            ++ ("FATAL: " ++ name_or_placeholder name ++ ": "
                ++ message L "errp" (fmt_or_placeholder fmt) ap ++ LF)
            ++ if live =? 0 then "" else errno_line L (errno s))
           (Exited (final_exitcode exitcode))) /\
  emits (usage_err L G exitcode name fmt ap) s
        (usage_range_warnings "usage_err" exitcode
         ++ null_name_warning "usage_err" name ++ null_fmt_warning "usage_err" fmt
         ++ (if final_exitcode exitcode >? 0
             then "FATAL: " ++ name_or_placeholder name ++ ": "
                  ++ usage_message L "usage_err" (fmt_or_placeholder fmt) ap ++ LF
             else "")
         ++ usage_line G ++ "version: " ++ version_string G ++ LF)
        (Exited (final_exitcode exitcode)) /\
  emits (usage_errp L G exitcode name fmt ap) s
        (usage_range_warnings "usage_errp" exitcode
         ++ null_name_warning "usage_errp" name ++ null_fmt_warning "usage_errp" fmt
         ++ (if final_exitcode exitcode >? 0
             then ("FATAL: " ++ name_or_placeholder name ++ ": "
                   ++ usage_message L "usage_errp" (fmt_or_placeholder fmt) ap ++ LF)
                  ++ errno_line L (errno s)
             else "")
         ++ usage_line G ++ version_string G)
        (Exited (final_exitcode exitcode)).
Proof.
  intros HL.
  split; [intros func; apply placeholder_message, HL|].
  split; [intros func; apply placeholder_usage_message, HL|].
  split; [apply (msg_Emits L HL)|].
  split; [apply (dbg_Emits L HL)|].
  split; [apply (warn_Emits L HL)|].
  split; [apply (warnp_emits L HL)|].
  split; [apply (err_Emits L HL)|].
  split; [apply (errp_emits L HL)|].
  split; [apply (usage_err_Emits L HL) | apply (usage_errp_emits L HL)].
Qed.

Lemma null_name_and_fmt_are_replaced_witness :
  conforms quiet_libc /\
  emits (msg quiet_libc None [ArgInt 7]) fresh_state
        ("Warning: msg: NULL fmt given to debug" ++ LF ++ "((NULL fmt))" ++ LF)
        (Returned tt) /\
  emits (err quiet_libc 3 None None []) fresh_state
        ("Warning: err: called with NULL name" ++ LF
         ++ "Warning: err: called with NULL fmt" ++ LF
         ++ "FATAL: ((NULL name)): ((NULL fmt))" ++ LF)
        (Exited 3).
Proof.
  split; [exact quiet_libc_conforms|]. split.
  - exact (proj1 (proj2 (proj2
      (null_name_and_fmt_are_replaced quiet_libc sample_globals 0 3 None None
         [ArgInt 7] fresh_state quiet_libc_conforms)))).
  - exact (proj1 (proj2 (proj2 (proj2 (proj2 (proj2 (proj2
      (null_name_and_fmt_are_replaced quiet_libc sample_globals 0 3 None None
         [] fresh_state quiet_libc_conforms)))))))).
Defined.

(** C8.  [warn("parse", "unexpected token %s", "foo")] appends exactly the
    line "Warning: parse: unexpected token foo" and a newline to
    [stderr], and returns. *)
Theorem warn_parse_unexpected_token (L : libc) (s : state) :
  conforms L ->
  emits (warn L (Some "parse") (Some "unexpected token %s") [ArgStr "foo"]) s
        ("Warning: parse: unexpected token foo" ++ LF)
        (Returned tt).
Proof.
  intros HL. apply Emits_at.
  apply (warn_fixed L HL "parse" "unexpected token %s" [ArgStr "foo"]
           "unexpected token foo"); [reflexivity | discriminate].
Qed.

Lemma warn_parse_unexpected_token_witness :
  conforms quiet_libc /\
  emits (warn quiet_libc (Some "parse") (Some "unexpected token %s") [ArgStr "foo"])
        fresh_state
        ("Warning: parse: unexpected token foo" ++ LF)
        (Returned tt).
Proof.
  split; [exact quiet_libc_conforms|].
  exact (warn_parse_unexpected_token quiet_libc fresh_state quiet_libc_conforms).
Defined.

(** C9.  With a [NULL] format, [dbg] sends its warning before it compares
    the level with [debuglevel]: the warning is written at every level,
    also when the level is above [debuglevel] and the message itself is
    not printed. *)
Theorem dbg_null_fmt_warns_before_level_test
    (L : libc) (G : globals) (level : Z) (ap : va_list) (s : state) :
  conforms L ->
  emits (dbg L G level None ap) s
        ("Warning: dbg: NULL fmt given to debug" ++ LF
         ++ if level <=? debuglevel G then "((NULL fmt))" ++ LF else "")
        (Returned tt) /\
  (debuglevel G < level ->
   stderr (snd (dbg L G level None ap s))
   = stderr s ++ "Warning: dbg: NULL fmt given to debug" ++ LF).
Proof.
  intros HL.
  pose proof (dbg_Emits L HL G level None ap s) as [H1 H2].
  cbn [null_fmt_debug fmt_or_placeholder] in H2.
  rewrite (placeholder_message L "dbg" ap HL) in H2.
  split.
  - split; [exact H1|]. rewrite H2. f_equal; string_eq.
  - intros Hgt. rewrite H2.
    destruct (Z.leb_spec level (debuglevel G)); [lia|]. f_equal; string_eq.
Qed.

Lemma dbg_null_fmt_warns_before_level_test_witness :
  conforms quiet_libc /\ debuglevel sample_globals < 5 /\
  stderr (snd (dbg quiet_libc sample_globals 5 None [] fresh_state))
  = "Warning: dbg: NULL fmt given to debug" ++ LF.
Proof.
  split; [exact quiet_libc_conforms|]. split; [simpl; lia|].
  apply (proj2 (dbg_null_fmt_warns_before_level_test quiet_libc sample_globals 5 []
                  fresh_state quiet_libc_conforms)).
  simpl. lia.
Defined.

(** C10.  After the usage help line, [usage_err] prints "version: ", the
    version string and a newline, while [usage_errp] prints the version
    string alone, with no label and no newline after it. *)
Theorem usage_version_line_differs
    (L : libc) (G : globals) (exitcode : Z) (name fmt : option string)
    (ap : va_list) (s : state) :
  conforms L ->
  emits (usage_err L G exitcode name fmt ap) s
        (usage_range_warnings "usage_err" exitcode
         ++ null_name_warning "usage_err" name ++ null_fmt_warning "usage_err" fmt
         ++ (if final_exitcode exitcode >? 0
             then usage_fatal_line L "usage_err" (name_or_placeholder name)
                    (fmt_or_placeholder fmt) ap
             else "")
         ++ usage_line G
         ++ "version: " ++ version_string G ++ LF)
        (Exited (final_exitcode exitcode)) /\
  emits (usage_errp L G exitcode name fmt ap) s
        (usage_range_warnings "usage_errp" exitcode
         ++ null_name_warning "usage_errp" name ++ null_fmt_warning "usage_errp" fmt
         ++ (if final_exitcode exitcode >? 0
             then usage_fatal_line L "usage_errp" (name_or_placeholder name)
                    (fmt_or_placeholder fmt) ap
                  ++ errno_line L (errno s)
             else "")
         ++ usage_line G
         ++ version_string G)
        (Exited (final_exitcode exitcode)).
Proof.
  intros HL. split.
  - apply (usage_err_Emits L HL).
  - apply (usage_errp_emits L HL).
Qed.

Lemma usage_version_line_differs_witness :
  conforms quiet_libc /\
  emits (usage_err quiet_libc sample_globals 99 (Some "main") (Some "bad flag") [])
        fresh_state
        ("FATAL: main: bad flag" ++ LF
         ++ "For command line usage help, try: prime -h" ++ LF
         ++ "version: 1.0" ++ LF)
        (Exited 99) /\
  emits (usage_errp quiet_libc sample_globals 99 (Some "main") (Some "bad flag") [])
        fresh_state
        ("FATAL: main: bad flag" ++ LF
         ++ "errno[0]: Success" ++ LF
         ++ "For command line usage help, try: prime -h" ++ LF
         ++ "1.0")
        (Exited 99).
Proof.
  split; [exact quiet_libc_conforms|].
  exact (usage_version_line_differs quiet_libc sample_globals 99 (Some "main")
           (Some "bad flag") [] fresh_state quiet_libc_conforms).
Defined.

(** ** Further properties of the reporting functions *)

Lemma final_exitcode_range (exitcode : Z) : 0 <= final_exitcode exitcode <= 255.
Proof.
  unfold final_exitcode, FORCED_EXIT.
  destruct (Z.ltb_spec exitcode 0); destruct (Z.geb_spec exitcode 256);
    cbn [orb]; lia.
Qed.

Lemma final_exitcode_kept (exitcode : Z) :
  final_exitcode exitcode = exitcode <-> 0 <= exitcode <= 255.
Proof.
  unfold final_exitcode, FORCED_EXIT.
  destruct (Z.ltb_spec exitcode 0); destruct (Z.geb_spec exitcode 256);
    cbn [orb]; lia.
Qed.

Lemma final_exitcode_zero (exitcode : Z) :
  final_exitcode exitcode = 0 <-> exitcode = 0.
Proof.
  unfold final_exitcode, FORCED_EXIT.
  destruct (Z.ltb_spec exitcode 0); destruct (Z.geb_spec exitcode 256);
    cbn [orb]; lia.
Qed.

Lemma Exited_inj {A : Type} (a b : Z) : @Exited A a = Exited b <-> a = b.
Proof. split; [intros H; now injection H | now intros ->]. Qed.

(** X1.  Whatever exit code they are given and whatever the library does,
    [err], [errp], [usage_err] and [usage_errp] end the process with a
    status in [0, 255], the same for the four. *)
Theorem fatal_exit_status_in_range
    (L : libc) (G : globals) (exitcode : Z) (name fmt : option string)
    (ap : va_list) (s : state) :
  exists status,
    0 <= status <= 255 /\
    fst (err L exitcode name fmt ap s) = Exited status /\
    fst (errp L exitcode name fmt ap s) = Exited status /\
    fst (usage_err L G exitcode name fmt ap s) = Exited status /\
    fst (usage_errp L G exitcode name fmt ap s) = Exited status.
Proof.
  exists (final_exitcode exitcode).
  split; [apply final_exitcode_range|].
  split; [apply exits_err|].
  split; [apply exits_errp|].
  split; [apply exits_usage_err | apply exits_usage_errp].
Qed.

(** X2.  The process ends with the very code that was requested exactly
    when that code lies in [0, 255]: 0 and 255 are kept, -1 and 256 are
    not. *)
Theorem fatal_exit_status_kept_iff_in_range
    (L : libc) (G : globals) (exitcode : Z) (name fmt : option string)
    (ap : va_list) (s : state) :
  (fst (err L exitcode name fmt ap s) = Exited exitcode <-> 0 <= exitcode <= 255) /\
  (fst (errp L exitcode name fmt ap s) = Exited exitcode <-> 0 <= exitcode <= 255) /\
  (fst (usage_err L G exitcode name fmt ap s) = Exited exitcode
   <-> 0 <= exitcode <= 255) /\
  (fst (usage_errp L G exitcode name fmt ap s) = Exited exitcode
   <-> 0 <= exitcode <= 255).
Proof.
  rewrite (exits_err L exitcode name fmt ap s), (exits_errp L exitcode name fmt ap s),
    (exits_usage_err L G exitcode name fmt ap s),
    (exits_usage_errp L G exitcode name fmt ap s).
  rewrite !Exited_inj, !final_exitcode_kept. tauto.
Qed.

(** X3.  A fatal function ends the process with status 0 only when it was
    asked to: a nonzero exit code, in range or not, never becomes a
    successful exit, and [err(0, ...)] does exit with 0. *)
Theorem fatal_exit_status_zero_iff_requested
    (L : libc) (G : globals) (exitcode : Z) (name fmt : option string)
    (ap : va_list) (s : state) :
  (fst (err L exitcode name fmt ap s) = Exited 0 <-> exitcode = 0) /\
  (fst (errp L exitcode name fmt ap s) = Exited 0 <-> exitcode = 0) /\
  (fst (usage_err L G exitcode name fmt ap s) = Exited 0 <-> exitcode = 0) /\
  (fst (usage_errp L G exitcode name fmt ap s) = Exited 0 <-> exitcode = 0).
Proof.
  rewrite (exits_err L exitcode name fmt ap s), (exits_errp L exitcode name fmt ap s),
    (exits_usage_err L G exitcode name fmt ap s),
    (exits_usage_errp L G exitcode name fmt ap s).
  rewrite !Exited_inj, !final_exitcode_zero. tauto.
Qed.

(** X5.  On a library that never sets [errno] back to zero, [errp] entered
    with a nonzero [errno] always prints the errno line, with the value
    [errno] had on entry, after the fatal line. *)
Theorem errp_prints_errno_line_when_errno_nonzero
    (L : libc) (exitcode : Z) (name fmt : option string) (ap : va_list) (s : state) :
  conforms L ->
  (forall s' text, errno s' <> 0 -> stdio_errno L s' text <> 0) ->
  errno s <> 0 ->
  emits (errp L exitcode name fmt ap) s
        (range_warnings "errp" exitcode
         ++ null_name_warning "errp" name ++ null_fmt_warning "errp" fmt
         ++ fatal_line L "errp" (name_or_placeholder name) (fmt_or_placeholder fmt) ap
         ++ errno_line L (errno s))
        (Exited (final_exitcode exitcode)).
Proof.
  intros HL Hsticky Hs. now apply errp_line_when_errno_nonzero.
Qed.

Lemma errp_prints_errno_line_when_errno_nonzero_witness :
  conforms probing_libc /\
  (forall s' text, errno s' <> 0 -> stdio_errno probing_libc s' text <> 0) /\
  errno (mkState "" 2) <> 0 /\
  emits (errp probing_libc 3 (Some "load") (Some "cannot open %s") [ArgStr "p.txt"])
        (mkState "" 2)
        ("FATAL: load: cannot open p.txt" ++ LF
         ++ "errno[2]: No such file or directory" ++ LF)
        (Exited 3).
Proof.
  assert (H1 : forall s' text, errno s' <> 0 -> stdio_errno probing_libc s' text <> 0)
    by (intros s' text _; discriminate).
  assert (H2 : errno (mkState "" 2) <> 0) by discriminate.
  split; [exact probing_libc_conforms|]. split; [exact H1|]. split; [exact H2|].
  exact (errp_prints_errno_line_when_errno_nonzero probing_libc 3 (Some "load")
           (Some "cannot open %s") [ArgStr "p.txt"] (mkState "" 2)
           probing_libc_conforms H1 H2).
Defined.

(** X6.  On a library whose stdio calls leave [errno] as it is, [errp]
    prints the errno line exactly when [errno] is nonzero on entry. *)
Theorem errp_errno_line_iff_nonzero_when_errno_undisturbed
    (L : libc) (exitcode : Z) (name fmt : option string) (ap : va_list) (s : state) :
  conforms L ->
  (forall s' text, stdio_errno L s' text = errno s') ->
  emits (errp L exitcode name fmt ap) s
        (range_warnings "errp" exitcode
         ++ null_name_warning "errp" name ++ null_fmt_warning "errp" fmt
         ++ fatal_line L "errp" (name_or_placeholder name) (fmt_or_placeholder fmt) ap
         ++ if errno s =? 0 then "" else errno_line L (errno s))
        (Exited (final_exitcode exitcode)).
Proof.
  intros HL Hquiet. now apply errp_line_on_undisturbed_errno.
Qed.

Lemma errp_errno_line_iff_nonzero_when_errno_undisturbed_witness :
  conforms quiet_libc /\
  (forall s' text, stdio_errno quiet_libc s' text = errno s') /\
  emits (errp quiet_libc 3 (Some "load") (Some "bad header") []) fresh_state
        ("FATAL: load: bad header" ++ LF)
        (Exited 3).
Proof.
  assert (H1 : forall s' text, stdio_errno quiet_libc s' text = errno s')
    by (intros s' text; reflexivity).
  split; [exact quiet_libc_conforms|]. split; [exact H1|].
  exact (errp_errno_line_iff_nonzero_when_errno_undisturbed quiet_libc 3 (Some "load")
           (Some "bad header") [] fresh_state quiet_libc_conforms H1).
Defined.

(** X7.  An empty format is treated as a failed print: [vfprintf] returns
    0, and instead of an empty line the function writes its note with the
    value 0, in brackets for [msg], [dbg], [warn] and [err], without them
    for [usage_err]. *)
Theorem empty_format_writes_error_note
    (L : libc) (G : globals) (level exitcode : Z) (name : string)
    (ap : va_list) (s : state) :
  conforms L ->
  emits (msg L (Some "") ap) s
        ("[msg vfprintf returned error: 0]" ++ LF) (Returned tt) /\
  (level <= debuglevel G ->
   emits (dbg L G level (Some "") ap) s
         ("[dbg vfprintf returned error: 0]" ++ LF) (Returned tt)) /\
  emits (warn L (Some name) (Some "") ap) s
        ("Warning: " ++ name ++ ": [warn vfprintf returned error: 0]" ++ LF)
        (Returned tt) /\
  (0 <= exitcode <= 255 ->
   emits (err L exitcode (Some name) (Some "") ap) s
         ("FATAL: " ++ name ++ ": [err vfprintf returned error: 0]" ++ LF)
         (Exited exitcode)) /\
  (0 < exitcode <= 255 ->
   emits (usage_err L G exitcode (Some name) (Some "") ap) s
         ("FATAL: " ++ name ++ ": usage_err: vfprintf returned error: 0" ++ LF
          ++ usage_line G ++ "version: " ++ version_string G ++ LF)
         (Exited exitcode)).
Proof.
  intros HL.
  assert (Hm : forall func, message L func "" ap = "[" ++ func ++ " vfprintf returned error: 0]").
  { intros func. unfold message. rewrite (HL "" ap "" eq_refl). reflexivity. }
  assert (Hu : forall func, usage_message L func "" ap = func ++ ": vfprintf returned error: 0").
  { intros func. unfold usage_message. rewrite (HL "" ap "" eq_refl). reflexivity. }
  split; [|split; [|split; [|split]]].
  - eapply Emits_at, Emits_eq; [|apply (msg_Emits L HL)].
    cbn [null_fmt_debug fmt_or_placeholder]. rewrite Hm. reflexivity.
  - intros Hle. eapply Emits_at, Emits_eq; [|apply (dbg_Emits L HL)].
    cbn [null_fmt_debug fmt_or_placeholder]. rewrite Hm.
    destruct (Z.leb_spec level (debuglevel G)); [reflexivity | lia].
  - eapply Emits_at, Emits_eq; [|apply (warn_Emits L HL)].
    unfold warn_line. cbn [self_null_name self_null_fmt name_or_placeholder
                             fmt_or_placeholder]. rewrite Hm. reflexivity.
  - intros Hin. pose proof (proj2 (final_exitcode_kept exitcode) Hin) as Hk.
    rewrite <- Hk at 2. eapply Emits_at, Emits_eq; [|apply (err_Emits L HL)].
    unfold fatal_line, range_warnings.
    replace (exitcode >=? 256) with false
      by (symmetry; rewrite Z.geb_leb; apply Z.leb_gt; lia).
    replace (exitcode <? 0) with false by (symmetry; apply Z.ltb_ge; lia).
    cbn [null_name_warning null_fmt_warning name_or_placeholder fmt_or_placeholder].
    rewrite Hm. reflexivity.
  - intros Hin. assert (Hin' : 0 <= exitcode <= 255) by lia.
    pose proof (proj2 (final_exitcode_kept exitcode) Hin') as Hk.
    rewrite <- Hk at 2. eapply Emits_at, Emits_eq; [|apply (usage_err_Emits L HL)].
    unfold usage_fatal_line, usage_range_warnings. rewrite Hk.
    replace (exitcode >=? 256) with false
      by (symmetry; rewrite Z.geb_leb; apply Z.leb_gt; lia).
    replace (exitcode <? 0) with false by (symmetry; apply Z.ltb_ge; lia).
    replace (exitcode >? 0) with true
      by (symmetry; rewrite Z.gtb_ltb; apply Z.ltb_lt; lia).
    cbn [orb null_name_warning null_fmt_warning name_or_placeholder fmt_or_placeholder].
    rewrite Hu. string_eq.
Qed.

Lemma empty_format_writes_error_note_witness :
  conforms quiet_libc /\
  emits (msg quiet_libc (Some "") []) fresh_state
        ("[msg vfprintf returned error: 0]" ++ LF) (Returned tt).
Proof.
  split; [exact quiet_libc_conforms|].
  exact (proj1 (empty_format_writes_error_note quiet_libc sample_globals 0 1 "main" []
                  fresh_state quiet_libc_conforms)).
Defined.

(** X8.  [warnp] is [warn] followed by the errno line: for a name and a
    format that are given and a print that returned a positive count,
    [warnp] leaves on [stderr] what [warn] leaves there for the same
    arguments, then the errno line of the value [errno] had on entry. *)
Theorem warnp_writes_warn_then_errno_line
    (L : libc) (name fmt : string) (ap : va_list) (s : state) :
  conforms L ->
  0 < snd (vformat L fmt ap) ->
  stderr (snd (warnp L (Some name) (Some fmt) ap s))
  = stderr (snd (warn L (Some name) (Some fmt) ap s)) ++ errno_line L (errno s).
Proof.
  intros HL Hr.
  rewrite (proj2 (warnp_emits L HL (Some name) (Some fmt) ap s)).
  rewrite (proj2 (warn_Emits L HL (Some name) (Some fmt) ap s)).
  assert (E : (snd (vformat L fmt ap) <=? 0) = false) by (apply Z.leb_gt; lia).
  unfold warn_line, message, diag.
  cbn [self_null_name self_null_fmt name_or_placeholder fmt_or_placeholder].
  rewrite E. string_eq.
Qed.

Lemma warnp_writes_warn_then_errno_line_witness :
  conforms quiet_libc /\
  0 < snd (vformat quiet_libc "cannot read %s" [ArgStr "primes.txt"]) /\
  stderr (snd (warnp quiet_libc (Some "load") (Some "cannot read %s")
                 [ArgStr "primes.txt"] (mkState "" 13)))
  = stderr (snd (warn quiet_libc (Some "load") (Some "cannot read %s")
                   [ArgStr "primes.txt"] (mkState "" 13)))
    ++ errno_line quiet_libc 13.
Proof.
  assert (Hr : 0 < snd (vformat quiet_libc "cannot read %s" [ArgStr "primes.txt"]))
    by (vm_compute; reflexivity).
  split; [exact quiet_libc_conforms|]. split; [exact Hr|].
  exact (warnp_writes_warn_then_errno_line quiet_libc "load" "cannot read %s"
           [ArgStr "primes.txt"] (mkState "" 13) quiet_libc_conforms Hr).
Defined.

(** X9.  With any exit code other than 0, the usage functions print the
    fatal line before the usage help, also when the code is negative or
    too large and has been forced to 255; [usage_errp] adds the errno line
    whatever the value of [errno]. *)
Theorem usage_nonzero_exit_code_prints_fatal_line
    (L : libc) (G : globals) (exitcode : Z) (name fmt : option string)
    (ap : va_list) (s : state) :
  conforms L ->
  exitcode <> 0 ->
  emits (usage_err L G exitcode name fmt ap) s
        (usage_range_warnings "usage_err" exitcode
         ++ null_name_warning "usage_err" name ++ null_fmt_warning "usage_err" fmt
         ++ ("FATAL: " ++ name_or_placeholder name ++ ": "
             ++ usage_message L "usage_err" (fmt_or_placeholder fmt) ap ++ LF)
         ++ usage_line G ++ "version: " ++ version_string G ++ LF)
        (Exited (final_exitcode exitcode)) /\
  emits (usage_errp L G exitcode name fmt ap) s
        (usage_range_warnings "usage_errp" exitcode
         ++ null_name_warning "usage_errp" name ++ null_fmt_warning "usage_errp" fmt
         ++ ("FATAL: " ++ name_or_placeholder name ++ ": "
             ++ usage_message L "usage_errp" (fmt_or_placeholder fmt) ap ++ LF
             ++ errno_line L (errno s))
         ++ usage_line G ++ version_string G)
        (Exited (final_exitcode exitcode)).
Proof.
  intros HL Hnz.
  assert (Hpos : (final_exitcode exitcode >? 0) = true).
  { rewrite Z.gtb_ltb. apply Z.ltb_lt.
    pose proof (final_exitcode_range exitcode) as Hr.
    pose proof (final_exitcode_zero exitcode) as Hz.
    destruct (Z.eq_dec (final_exitcode exitcode) 0) as [E|E]; [|lia].
    exfalso. apply Hnz, Hz, E. }
  pose proof (usage_err_Emits L HL G exitcode name fmt ap s) as [H1 H2].
  pose proof (usage_errp_emits L HL G exitcode name fmt ap s) as [H3 H4].
  rewrite Hpos in H2, H4. unfold usage_fatal_line in H2, H4.
  split; split; try assumption.
  rewrite H4. f_equal. string_eq.
Qed.

Lemma usage_nonzero_exit_code_prints_fatal_line_witness :
  conforms quiet_libc /\ (-1 <> 0) /\
  emits (usage_err quiet_libc sample_globals (-1) (Some "main") (Some "bad flag") [])
        fresh_state
        ("Warning: usage_err: exitcode must be >= 0 && < 256: -1" ++ LF
         ++ "Warning: usage_err: forcing exit code: 255" ++ LF
         ++ "FATAL: main: bad flag" ++ LF
         ++ "For command line usage help, try: prime -h" ++ LF
         ++ "version: 1.0" ++ LF)
        (Exited 255).
Proof.
  assert (Hnz : -1 <> 0) by discriminate.
  split; [exact quiet_libc_conforms|]. split; [exact Hnz|].
  exact (proj1 (usage_nonzero_exit_code_prints_fatal_line quiet_libc sample_globals
                  (-1) (Some "main") (Some "bad flag") [] fresh_state
                  quiet_libc_conforms Hnz)).
Defined.

(** X10.  Raising the verbosity never loses a debug message: a call of
    [dbg] that passes the test under one value of [debuglevel] does the
    same, to [stderr] and to [errno], under every larger one; [program] and
    [version_string] play no part. *)
Theorem dbg_unchanged_when_debuglevel_raised
    (L : libc) (G G' : globals) (level : Z) (fmt : option string)
    (ap : va_list) (s : state) :
  level <= debuglevel G ->
  debuglevel G <= debuglevel G' ->
  dbg L G' level fmt ap s = dbg L G level fmt ap s.
Proof.
  intros Hle Hup. unfold dbg.
  replace (level <=? debuglevel G') with true by (symmetry; apply Z.leb_le; lia).
  replace (level <=? debuglevel G) with true by (symmetry; apply Z.leb_le; lia).
  reflexivity.
Qed.

Lemma dbg_unchanged_when_debuglevel_raised_witness :
  1 <= debuglevel sample_globals /\
  debuglevel sample_globals <= debuglevel (mkGlobals 9 None "") /\
  dbg quiet_libc (mkGlobals 9 None "") 1 (Some "pass %d") [ArgInt 4] fresh_state
  = dbg quiet_libc sample_globals 1 (Some "pass %d") [ArgInt 4] fresh_state.
Proof.
  assert (H1 : 1 <= debuglevel sample_globals) by (simpl; lia).
  assert (H2 : debuglevel sample_globals <= debuglevel (mkGlobals 9 None ""))
    by (simpl; lia).
  split; [exact H1|]. split; [exact H2|].
  exact (dbg_unchanged_when_debuglevel_raised quiet_libc sample_globals
           (mkGlobals 9 None "") 1 (Some "pass %d") [ArgInt 4] fresh_state H1 H2).
Defined.

(** X11.  A [dbg] call that passes the level test is the [msg] call with
    the same format and arguments, for a format that is given and a print
    that returned a positive count: same text, same [errno], same return,
    with any library. *)
Theorem dbg_at_passing_level_is_msg
    (L : libc) (G : globals) (level : Z) (fmt : string) (ap : va_list) (s : state) :
  level <= debuglevel G ->
  0 < snd (vformat L fmt ap) ->
  dbg L G level (Some fmt) ap s = msg L (Some fmt) ap s.
Proof.
  intros Hle Hr. unfold dbg, msg, when.
  replace (level <=? debuglevel G) with true by (symmetry; apply Z.leb_le; lia).
  unfold bind, ret. cbv beta iota.
  unfold vfprintf. destruct (vformat L fmt ap) as [text r]. cbn [snd] in Hr.
  unfold bind, ret, put. cbv beta iota.
  replace (r <=? 0) with false by (symmetry; apply Z.leb_gt; lia).
  reflexivity.
Qed.

Lemma dbg_at_passing_level_is_msg_witness :
  1 <= debuglevel sample_globals /\
  0 < snd (vformat quiet_libc "pass %d" [ArgInt 4]) /\
  dbg quiet_libc sample_globals 1 (Some "pass %d") [ArgInt 4] fresh_state
  = msg quiet_libc (Some "pass %d") [ArgInt 4] fresh_state.
Proof.
  assert (H1 : 1 <= debuglevel sample_globals) by (simpl; lia).
  assert (H2 : 0 < snd (vformat quiet_libc "pass %d" [ArgInt 4]))
    by (vm_compute; reflexivity).
  split; [exact H1|]. split; [exact H2|].
  exact (dbg_at_passing_level_is_msg quiet_libc sample_globals 1 "pass %d"
           [ArgInt 4] fresh_state H1 H2).
Defined.

(** X13.  [msg], [warn], [warnp], [err], [errp] and [usage_err] write whole
    lines: whatever the arguments, what they append to [stderr] ends with a
    newline.  ([usage_errp] does not: it ends with the version string.) *)
Theorem output_ends_with_newline
    (L : libc) (G : globals) (exitcode : Z) (name fmt : option string)
    (ap : va_list) (s : state) :
  conforms L ->
  (exists body, stderr (snd (msg L fmt ap s)) = stderr s ++ body ++ LF) /\
  (exists body, stderr (snd (warn L name fmt ap s)) = stderr s ++ body ++ LF) /\
  (exists body, stderr (snd (warnp L name fmt ap s)) = stderr s ++ body ++ LF) /\
  (exists body, stderr (snd (err L exitcode name fmt ap s)) = stderr s ++ body ++ LF) /\
  (exists body, stderr (snd (errp L exitcode name fmt ap s)) = stderr s ++ body ++ LF) /\
  (exists body,
     stderr (snd (usage_err L G exitcode name fmt ap s)) = stderr s ++ body ++ LF).
Proof.
  intros HL.
  split; [|split; [|split; [|split; [|split]]]].
  - rewrite (proj2 (msg_Emits L HL fmt ap s)).
    exists (null_fmt_debug "msg" fmt ++ message L "msg" (fmt_or_placeholder fmt) ap).
    now rewrite !append_assoc.
  - rewrite (proj2 (warn_Emits L HL name fmt ap s)). unfold warn_line.
    exists (self_null_name "warn" name ++ self_null_fmt "warn" fmt
            ++ "Warning: " ++ name_or_placeholder name ++ ": "
            ++ message L "warn" (fmt_or_placeholder fmt) ap).
    f_equal. string_eq.
  - rewrite (proj2 (warnp_emits L HL name fmt ap s)). unfold errno_line.
    exists (self_null_name "warnp" name ++ self_null_fmt "warnp" fmt
            ++ "Warning: " ++ name_or_placeholder name ++ ": "
            ++ message L "warnp" (fmt_or_placeholder fmt) ap ++ LF
            ++ "errno[" ++ dec (errno s) ++ "]: " ++ strerror L (errno s)).
    f_equal. string_eq.
  - rewrite (proj2 (err_Emits L HL exitcode name fmt ap s)). unfold fatal_line.
    exists (range_warnings "err" exitcode
            ++ null_name_warning "err" name ++ null_fmt_warning "err" fmt
            ++ "FATAL: " ++ name_or_placeholder name ++ ": "
            ++ message L "err" (fmt_or_placeholder fmt) ap).
    f_equal. string_eq.
  - destruct (errp_emits L HL exitcode name fmt ap s) as [live [_ H]].
    rewrite H. unfold fatal_line, errno_line. destruct (live =? 0).
    + exists (range_warnings "errp" exitcode
              ++ null_name_warning "errp" name ++ null_fmt_warning "errp" fmt
              ++ "FATAL: " ++ name_or_placeholder name ++ ": "
              ++ message L "errp" (fmt_or_placeholder fmt) ap).
      f_equal. string_eq.
    + exists (range_warnings "errp" exitcode
              ++ null_name_warning "errp" name ++ null_fmt_warning "errp" fmt
              ++ "FATAL: " ++ name_or_placeholder name ++ ": "
              ++ message L "errp" (fmt_or_placeholder fmt) ap ++ LF
              ++ "errno[" ++ dec (errno s) ++ "]: " ++ strerror L (errno s)).
      f_equal. string_eq.
  - rewrite (proj2 (usage_err_Emits L HL G exitcode name fmt ap s)).
    exists (usage_range_warnings "usage_err" exitcode
            ++ null_name_warning "usage_err" name ++ null_fmt_warning "usage_err" fmt
            ++ (if final_exitcode exitcode >? 0
                then usage_fatal_line L "usage_err" (name_or_placeholder name)
                       (fmt_or_placeholder fmt) ap
                else "")
            ++ usage_line G ++ "version: " ++ version_string G).
    f_equal. string_eq.
Qed.

Lemma output_ends_with_newline_witness :
  conforms quiet_libc /\
  exists body,
    stderr (snd (warn quiet_libc (Some "scan") (Some "skipped %d lines") [ArgInt 3]
                   fresh_state))
    = stderr fresh_state ++ body ++ LF.
Proof.
  split; [exact quiet_libc_conforms|].
  exact (proj1 (proj2
    (output_ends_with_newline quiet_libc sample_globals 0 (Some "scan")
       (Some "skipped %d lines") [ArgInt 3] fresh_state quiet_libc_conforms))).
Defined.
